(** * Epic Manifest Downloader: the orchestration layer of [main.py]

    A shallow embedding of [DownloadThread] (manifest acquisition, the
    two-format decode, the hand-off to the transfer engine, progress
    translation), of [UpdateProgress] and of the three [MainWindow] methods
    that drive the engine's life cycle ([download_file], [download_finished],
    [closeEvent]).

    The external collaborators ([requests.get], [open], the two manifest
    parsers, [DLManager], [os.kill]) are not part of the program: their
    behaviour is a parameter of the model (a [World]), and every theorem
    quantifies over it. *)

From Stdlib Require Import List String Ascii Bool Arith ZArith Floats Lia.
Import ListNotations.
Open Scope string_scope.
Open Scope list_scope.

Set Implicit Arguments.

(** ** Python exceptions *)

Module Py.

(** The classes that the [except] clauses of [main.py] name, with enough of
    the hierarchy around them to tell which clause catches what.
    [requests.RequestException] derives from [IOError], that is [OSError]. *)
Inductive exc_class : Type :=
| BaseException
| SystemExit
| KeyboardInterrupt
| Exception
| ArithmeticError
| OverflowError
| ValueError
| AttributeError
| OSError
| FileNotFoundError
| PermissionError
| IsADirectoryError
| ProcessLookupError
| RequestException
| ConnectionError
| HTTPError.

Definition exc_class_eqb (a b : exc_class) : bool :=
  match a, b with
  | BaseException, BaseException | SystemExit, SystemExit
  | KeyboardInterrupt, KeyboardInterrupt | Exception, Exception
  | ArithmeticError, ArithmeticError | OverflowError, OverflowError
  | ValueError, ValueError | AttributeError, AttributeError
  | OSError, OSError | FileNotFoundError, FileNotFoundError
  | PermissionError, PermissionError | IsADirectoryError, IsADirectoryError
  | ProcessLookupError, ProcessLookupError
  | RequestException, RequestException | ConnectionError, ConnectionError
  | HTTPError, HTTPError => true
  | _, _ => false
  end.

(** The direct base class. *)
Definition base (c : exc_class) : option exc_class :=
  match c with
  | BaseException => None
  | SystemExit | KeyboardInterrupt | Exception => Some BaseException
  | ArithmeticError | ValueError | AttributeError | OSError => Some Exception
  | OverflowError => Some ArithmeticError
  | FileNotFoundError | PermissionError | IsADirectoryError
  | ProcessLookupError | RequestException => Some OSError
  | ConnectionError | HTTPError => Some RequestException
  end.

(** [issubclass c d], walking up at most [fuel] base classes. *)
Fixpoint issubclass_upto (fuel : nat) (c d : exc_class) : bool :=
  exc_class_eqb c d ||
  match fuel, base c with
  | S fuel', Some c' => issubclass_upto fuel' c' d
  | _, _ => false
  end.

(** The hierarchy is five levels deep. *)
Definition issubclass : exc_class -> exc_class -> bool := issubclass_upto 5.

(** A raised exception: its class and the text [str(e)] gives. *)
Record exn : Type := mkExn { exn_class : exc_class; exn_str : string }.

Definition isinstance (e : exn) (c : exc_class) : bool :=
  issubclass (exn_class e) c.

(** What a call gives back: a value, or a raised exception. *)
Inductive result (A : Type) : Type :=
| Ok (a : A)
| Raise (e : exn).
Arguments Ok {A} a.
Arguments Raise {A} e.

End Py.
Import Py.

(** ** Observable effects *)

(** The progress sample of the engine ([legendary]'s [UIUpdate]): the fields
    [update_progress] reads.  A Python float is a binary64 number. *)
Record UIUpdate : Type := mkUIUpdate {
  progress : float;
  download_speed : float;
  read_speed : float;
  write_speed : float
}.

Definition bytes := list Byte.byte.

Inductive signal : Type := SIGTERM.

(** Everything [main.py] does to the outside, in the order it does it.
    In the trace of [run], [FinishedSignal] is the emission written in
    [run]; the same signal emitted by the thread class of the toolkit when
    [run] is over is added by [thread_events]. *)
Inductive event : Type :=
| LogInfo (msg : string)                     (* logging.info *)
| LogError (msg : string)                    (* logging.error *)
| RequestsGet (url : string)                 (* requests.get(url, stream=True) *)
| OpenRb (path : string)                     (* open(path, "rb") *)
| ManifestReadAll (data : bytes)             (* Manifest.read_all(data) *)
| JSONManifestReadAll (data : bytes)         (* JSONManifest.read_all(data) *)
| RunAnalysis                                (* manager.run_analysis(...) *)
| ManagerRun                                 (* manager.run() entered *)
| ProgressSignal (percent mbs rd wr : float) (* progress_signal.emit *)
| FinishedSignal                             (* self.finished.emit() *)
| SetRunning (b : bool)                      (* manager.running = b *)
| OsKill (pid : Z) (s : signal)              (* os.kill(pid, s) *)
| SuperCloseEvent.                           (* super().closeEvent(event) *)

Definition trace := list event.

(** ** A monad for Python statements

    A statement appends to the trace and ends in one of three ways: it falls
    through with a value, it executes [return], or it raises. *)
Module Stmt.

Inductive outcome (A : Type) : Type :=
| Normal (a : A)
| Returned
| Raised (e : exn).
Arguments Normal {A} a.
Arguments Returned {A}.
Arguments Raised {A} e.

Definition M (A : Type) : Type := (trace * outcome A)%type.

Definition ret {A} (a : A) : M A := ([], Normal a).

Definition bind {A B} (m : M A) (f : A -> M B) : M B :=
  match m with
  | (t, Normal a) => let (t', o) := f a in (t ++ t', o)
  | (t, Returned) => (t, Returned)
  | (t, Raised e) => (t, Raised e)
  end.

Definition emit (e : event) : M unit := ([e], Normal tt).
Definition return_ {A} : M A := ([], Returned).
Definition raise {A} (e : exn) : M A := ([], Raised e).

(** An external call: the event of calling it, then what it gave back. *)
Definition call {A} (e : event) (r : result A) : M A :=
  match r with
  | Ok a => ([e], Normal a)
  | Raise x => ([e], Raised x)
  end.

(** [try: body  except cls as e: handler e]. *)
Definition try_except {A} (body : M A) (cls : exc_class)
    (handler : exn -> M A) : M A :=
  match body with
  | (t, Raised e) =>
      if isinstance e cls
      then let (t', o) := handler e in (t ++ t', o)
      else (t, Raised e)
  | m => m
  end.

(** [try: body  finally: fin]: [fin] runs however [body] ended; when it
    falls through, the way [body] ended stands. *)
Definition try_finally {A} (body : M A) (fin : M unit) : M A :=
  match body, fin with
  | (t, o), (t', Normal _) => (t ++ t', o)
  | (t, _), (t', Returned) => (t ++ t', Returned)
  | (t, _), (t', Raised e) => (t ++ t', Raised e)
  end.

(** The boundary of a [def]: falling off the end and [return] both give
    [None] back to the caller; an exception goes through. *)
Definition def (body : M unit) : trace * result unit :=
  match body with
  | (t, Normal _) | (t, Returned) => (t, Ok tt)
  | (t, Raised e) => (t, Raise e)
  end.

Module Notations.
  Declare Scope stmt_scope.
  Delimit Scope stmt_scope with stmt.
  Notation "x <- c1 ;; c2" := (bind c1 (fun x => c2))
    (at level 100, c1 at next level, right associativity) : stmt_scope.
  Notation "c1 ;; c2" := (bind c1 (fun _ => c2))
    (at level 100, right associativity) : stmt_scope.
End Notations.

End Stmt.
Import Stmt Stmt.Notations.

(** ** The URL pattern

    [url_regex] reads, piece by piece: start of string; [http], an optional
    [s], [://]; an optional [www.]; 1 to 256 characters of the host set
    (letters, digits and [-@:%._+~#=]); a dot; 1 to 6 characters of the
    top-level set (letters, digits and the two parentheses); a word boundary;
    any number of characters of the path set (letters, digits and
    [-()@:%_+.~#?&=/]); end of string.
    Every repetition in it is over a character set, so the pattern language
    below keeps repetition to sets.  Strings are sequences of code points
    below 256. *)
Module Re.

Inductive regex : Type :=
| Bol                                              (* ^ *)
| Eol                                              (* $ *)
| WordBoundary                                     (* \b *)
| Lit (s : string)                                 (* literal text *)
| Opt (r : regex)                                  (* (?:r)? *)
| Rep (set : ascii -> bool) (lo : nat) (hi : option nat)  (* [set]{lo,hi}, [set]* *)
| Cat (r1 r2 : regex).

Definition in_range (lo hi c : ascii) : bool :=
  ((nat_of_ascii lo <=? nat_of_ascii c) && (nat_of_ascii c <=? nat_of_ascii hi))%nat.

Definition one_of (s : string) (c : ascii) : bool :=
  existsb (Ascii.eqb c) (list_ascii_of_string s).

(** [a-zA-Z0-9] *)
Definition alnum (c : ascii) : bool :=
  in_range "a" "z" c || in_range "A" "Z" c || in_range "0" "9" c.

(** [\w] on a [str] pattern: alphanumeric or underscore.  Above 127 these
    are the alphanumeric code points of Latin-1. *)
Definition word_char (c : ascii) : bool :=
  let n := nat_of_ascii c in
  (alnum c || Ascii.eqb c "_" ||
   Nat.eqb n 170 || Nat.eqb n 178 || Nat.eqb n 179 || Nat.eqb n 181 ||
   Nat.eqb n 185 || Nat.eqb n 186 ||
   ((188 <=? n) && (n <=? 190)) || ((192 <=? n) && (n <=? 214)) ||
   ((216 <=? n) && (n <=? 246)) || ((248 <=? n) && (n <=? 255)))%nat.

Definition is_word (c : option ascii) : bool :=
  match c with Some c => word_char c | None => false end.

Definition continuation := option ascii -> list ascii -> bool.

(** Literal text: the subject must start with it. *)
Fixpoint match_lit (l : list ascii) (prev : option ascii) (s : list ascii)
    (k : continuation) : bool :=
  match l with
  | [] => k prev s
  | c :: l' =>
      match s with
      | d :: s' => if Ascii.eqb c d then match_lit l' (Some d) s' k else false
      | [] => false
      end
  end.

(** The character before the position reached after reading [l]. *)
Definition after_lit (l : list ascii) (prev : option ascii) : option ascii :=
  match rev l with
  | c :: _ => Some c
  | [] => prev
  end.

(** Greedy bounded repetition of a set, backing off one character at a
    time.  [hi = None] is no upper bound. *)
Fixpoint match_rep (set : ascii -> bool) (lo : nat) (hi : option nat)
    (prev : option ascii) (s : list ascii) (k : continuation) : bool :=
  match s with
  | c :: s' =>
      (if set c && match hi with Some 0%nat => false | _ => true end
       then match_rep set (Nat.pred lo) (option_map Nat.pred hi) (Some c) s' k
       else false)
      || (if Nat.eqb lo 0 then k prev s else false)
  | [] => if Nat.eqb lo 0 then k prev s else false
  end.

(** Backtracking matcher in continuation style: [prev] is the character
    before the current position, [s] what is left of the subject. *)
Fixpoint matches (r : regex) (prev : option ascii) (s : list ascii)
    (k : continuation) : bool :=
  match r with
  | Bol => match prev with None => k prev s | Some _ => false end
  | Eol =>
      (* end of the string, or just before a newline that ends it *)
      match s with
      | [] => k prev s
      | [c] => if Ascii.eqb c "010" then k prev s else false
      | _ => false
      end
  | WordBoundary =>
      if xorb (is_word prev) (is_word (hd_error s)) then k prev s else false
  | Lit l => match_lit (list_ascii_of_string l) prev s k
  | Opt r' => matches r' prev s k || k prev s
  | Rep set lo hi => match_rep set lo hi prev s k
  | Cat r1 r2 => matches r1 prev s (fun p s' => matches r2 p s' k)
  end.

(** [re.match]: anchored at the start, the rest of the subject is free. *)
Definition re_match (r : regex) (subject : string) : bool :=
  matches r None (list_ascii_of_string subject) (fun _ _ => true).

End Re.

Module Export DownloadThreadRegex.
Import Re.

Definition host_set (c : ascii) : bool := alnum c || one_of "-@:%._+~#=" c.
Definition tld_set (c : ascii) : bool := alnum c || one_of "()" c.
Definition path_set (c : ascii) : bool := alnum c || one_of "-()@:%_+.~#?&=/" c.

Definition url_regex : regex :=
  Cat Bol
 (Cat (Lit "http") (Cat (Opt (Lit "s")) (Cat (Lit "://")
 (Cat (Opt (Lit "www."))
 (Cat (Rep host_set 1 (Some 256%nat))
 (Cat (Lit ".")
 (Cat (Rep tld_set 1 (Some 6%nat))
 (Cat WordBoundary
 (Cat (Rep path_set 0 None)
      Eol))))))))).

End DownloadThreadRegex.

(** ** Data of [main.py] *)

Record WorkInfo : Type := mkWorkInfo {
  base_url : string;
  manifest : string;
  download_location : string
}.

(** What the program touches of [legendary]'s [DLManager]: its constructor
    arguments, the [running] flag and [_parent_pid]. *)
Record DLManager : Type := mkDLManager {
  download_dir : string;
  manager_base_url : string;
  cache_dir : string;
  resume_file : string;
  running : bool;
  _parent_pid : Z
}.

Definition set_running (m : DLManager) (b : bool) : DLManager :=
  mkDLManager (download_dir m) (manager_base_url m) (cache_dir m)
              (resume_file m) b (_parent_pid m).

(** [requests.Response] under [stream=True]: the body is read when
    [.content] is, and reading it can still fail. *)
Record Response : Type := mkResponse {
  status_code : Z;
  content : result bytes
}.

(** A file opened for reading: what [f.read()] gives. *)
Record File : Type := mkFile { read : result bytes }.

(** [os.path.join] on POSIX, for one and for two components. *)
Definition ends_with_slash (s : string) : bool :=
  match rev (list_ascii_of_string s) with
  | c :: _ => Ascii.eqb c "/"
  | [] => false
  end.

Definition os_path_join (a b : string) : string :=
  match b with
  | String c _ => if Ascii.eqb c "/" then b
                  else if (String.eqb a "" || ends_with_slash a)%bool
                       then (a ++ b)%string
                       else (a ++ "/" ++ b)%string
  | EmptyString => if (String.eqb a "" || ends_with_slash a)%bool
                   then a else (a ++ "/")%string
  end.

(** ** The world outside the program *)

Section Program.

(** The decoded manifest is opaque to the program. *)
Variable Manifest : Type.

Record World : Type := mkWorld {
  (** [requests.get(url, stream=True)] *)
  requests_get : string -> result Response;
  (** [open(path, "rb")] *)
  open_rb : string -> result File;
  (** [Manifest.read_all(data)], the binary format *)
  Manifest_read_all : bytes -> result Manifest;
  (** [JSONManifest.read_all(data)], the text format *)
  JSONManifest_read_all : bytes -> result Manifest;
  (** [manager.run_analysis(manifest, None, processing_optimization=False)] *)
  run_analysis : Manifest -> result unit;
  (** [manager.run()]: the samples it puts on the progress queue, in order,
      then how it ends.  [None] stands for a falsy item. *)
  manager_run : Manifest -> list (option UIUpdate) * result unit;
  (** [os.kill(pid, sig)] *)
  os_kill : Z -> signal -> result unit;
  (** what [DLManager.__init__] leaves in [running] and [_parent_pid] *)
  manager_initially_running : bool;
  manager_parent_pid : Z
}.

(** ** [UpdateProgress] *)

Record UpdateProgress : Type := mkUpdateProgress {
  callback : option UIUpdate -> M unit
}.

(** [put(self, item, timeout=None)]: [self.callback(item)]. *)
Definition put (self : UpdateProgress) (item : option UIUpdate)
    (timeout : option float) : M unit :=
  callback self item.

(** ** [DownloadThread] *)

Record DownloadThread : Type := mkDownloadThread {
  url : string;
  work_info : WorkInfo;
  progress_queue : UpdateProgress;
  manager : DLManager
}.

(** [x / 1024 / 1024], as the source writes it. *)
Definition to_mbs (x : float) : float := (x / 1024 / 1024)%float.

(** [update_progress(self, progress)] *)
Definition update_progress (progress_ : option UIUpdate) : M unit :=
  match progress_ with
  | Some p =>
      let mbs := to_mbs (download_speed p) in
      emit (ProgressSignal (progress p) mbs
                           (to_mbs (read_speed p)) (to_mbs (write_speed p)))
  | None => ret tt
  end.

(** [__init__(self, url, work_info)] *)
Definition DownloadThread_init (w : World) (url_ : string)
    (work_info_ : WorkInfo) : DownloadThread :=
  mkDownloadThread url_ work_info_
    (mkUpdateProgress update_progress)
    (mkDLManager
       (download_location work_info_)
       (base_url work_info_)
       (os_path_join (download_location work_info_) ".cache")
       (os_path_join (download_location work_info_) ".resumedata")
       (manager_initially_running w)
       (manager_parent_pid w)).

(** A call whose result is already there: no event of its own. *)
Definition lift {A} (r : result A) : M A :=
  match r with
  | Ok a => ret a
  | Raise e => raise e
  end.

(** The engine puts each of its samples on the queue it was given. *)
Fixpoint put_all (q : UpdateProgress) (items : list (option UIUpdate)) : M unit :=
  match items with
  | [] => ret tt
  | item :: rest => (put q item (Some 1%float) ;; put_all q rest)%stmt
  end.

(** [self.manager.run()] as seen from [run]: the engine is entered, feeds
    the progress queue, and returns or raises. *)
Definition manager_run_call (w : World) (self : DownloadThread)
    (m : Manifest) : M unit :=
  (emit ManagerRun ;;
   put_all (progress_queue self) (fst (manager_run w m)) ;;
   lift (snd (manager_run w m)))%stmt.

(** [run(self)], first block: the manifest bytes, from the URL or from the
    file. *)
Definition acquire (w : World) (spec : string) : M bytes :=
  (if Re.re_match url_regex spec then
     emit (LogInfo "Downloading manifest from URL...") ;;
     try_except
       (resp <- call (RequestsGet spec) (requests_get w spec) ;;
        lift (content resp))
       RequestException
       (fun e =>
          emit (LogError ("Error downloading manifest: " ++ exn_str e)%string) ;;
          return_)
   else
     try_except
       (f <- call (OpenRb spec) (open_rb w spec) ;;
        lift (read f))
       FileNotFoundError
       (fun _ =>
          emit (LogError "Manifest file not found.") ;;
          return_))%stmt.

(** [run(self)], second block: the binary format, then the text format. *)
Definition decode (w : World) (data : bytes) : M Manifest :=
  try_except
    (call (ManifestReadAll data) (Manifest_read_all w data))
    Exception
    (fun _ =>
       try_except
         (call (JSONManifestReadAll data) (JSONManifest_read_all w data))
         Exception
         (fun e =>
            emit (LogError ("Error parsing manifest: " ++ exn_str e)%string) ;;
            return_))%stmt.

(** [run(self)], third block: analysis, then the engine under
    [try ... except SystemExit: pass ... finally: self.finished.emit()]. *)
Definition hand_off (w : World) (self : DownloadThread) (m : Manifest) : M unit :=
  (call RunAnalysis (run_analysis w m) ;;
   try_finally
     (try_except (manager_run_call w self m) SystemExit (fun _ => ret tt))
     (emit FinishedSignal))%stmt.

(** [run(self)] *)
Definition run (w : World) (self : DownloadThread) : trace * result unit :=
  def (data <- acquire w (manifest (work_info self)) ;;
       manifest_ <- decode w data ;;
       hand_off w self manifest_)%stmt.

(** [kill(self)]: [os.kill(self.manager._parent_pid, signal.SIGTERM)] *)
Definition kill (w : World) (self : DownloadThread) : M unit :=
  call (OsKill (_parent_pid (manager self)) SIGTERM)
       (os_kill w (_parent_pid (manager self)) SIGTERM).

(** ** [MainWindow] *)

(** What a label shows; the two formatted texts keep their numbers. *)
Inductive label_text : Type :=
| Text (s : string)
| DownloadRate (speed : float)             (* "Download {speed:.2f} MB/s" *)
| ReadWriteRate (read_speed_ write_speed_ : float).  (* "R/W {..:.2f} MB/s, {..:.2f} MB/s" *)

Record MainWindow : Type := mkMainWindow {
  url_edit : string;
  manifest_location_edit : string;
  download_location_edit : string;
  download_button_enabled : bool;
  progress_bar : Z;
  progress_label : label_text;
  speed_label : label_text;
  download_thread : option DownloadThread
}.

(** [init_ui(self)]: the widgets as they are created. *)
Definition init_ui : MainWindow :=
  mkMainWindow
    "https://epicgames-download1.akamaized.net/Builds/Fortnite/CloudDir/"
    "" "" true 0 (Text "") (Text "") None.

(** [download_file(self)]: builds the thread from the three text fields,
    keeps it in [self.download_thread], starts it and disables the button. *)
Definition download_file (w : World) (self : MainWindow) : MainWindow :=
  let url_ := url_edit self in
  let manifest_path := manifest_location_edit self in
  let dest_dir := download_location_edit self in
  let work_info_ := mkWorkInfo url_ manifest_path dest_dir in
  mkMainWindow (url_edit self) (manifest_location_edit self)
    (download_location_edit self) false (progress_bar self)
    (progress_label self) (speed_label self)
    (Some (DownloadThread_init w url_ work_info_)).

(** [int(x)] on a float: the whole part, towards zero; an infinity and a
    NaN have none. *)
Definition int_of_float (x : float) : result Z :=
  match Prim2SF x with
  | S754_zero _ => Ok 0%Z
  | S754_finite s m e =>
      let whole :=
        match e with
        | Zneg p => Z.shiftr (Zpos m) (Zpos p)
        | _ => Z.shiftl (Zpos m) e
        end in
      Ok (if s then (- whole)%Z else whole)
  | S754_infinity _ =>
      Raise (mkExn OverflowError "cannot convert float infinity to integer")
  | S754_nan =>
      Raise (mkExn ValueError "cannot convert float NaN to integer")
  end.

(** [QProgressBar.setValue(value)] on a bar whose range is the one it is
    created with, 0 to 100, and whose value is [current]: an argument that
    does not fit a C [int] is refused by the binding, a value outside the
    range is ignored. *)
Definition QProgressBar_setValue (current value : Z) : result Z :=
  if ((value <? -2147483648) || (2147483647 <? value))%Z
  then Raise (mkExn OverflowError "argument 1 overflowed: value must be in the range -2147483648 to 2147483647")
  else if ((0 <=? value) && (value <=? 100))%Z then Ok value
  else Ok current.

(** [update_progress(self, progress_percent, speed, read_speed, write_speed)],
    the slot of [progress_signal]: the bar first, then the two labels. *)
Definition MainWindow_update_progress (self : MainWindow)
    (progress_percent speed read_speed_ write_speed_ : float)
    : MainWindow * result unit :=
  match int_of_float progress_percent with
  | Raise e => (self, Raise e)
  | Ok n =>
      match QProgressBar_setValue (progress_bar self) n with
      | Raise e => (self, Raise e)
      | Ok bar =>
          (mkMainWindow (url_edit self) (manifest_location_edit self)
             (download_location_edit self) (download_button_enabled self)
             bar
             (ReadWriteRate read_speed_ write_speed_)
             (DownloadRate speed)
             (download_thread self),
           Ok tt)
      end
  end.

Definition with_thread (self : MainWindow) (t : option DownloadThread) : MainWindow :=
  mkMainWindow (url_edit self) (manifest_location_edit self)
    (download_location_edit self) (download_button_enabled self)
    (progress_bar self) (progress_label self) (speed_label self) t.

Definition stop_manager (t : DownloadThread) : DownloadThread :=
  mkDownloadThread (url t) (work_info t) (progress_queue t)
                   (set_running (manager t) false).

Definition none_has_no_attribute : exn :=
  mkExn AttributeError "'NoneType' object has no attribute 'manager'".

(** [download_finished(self)], the slot of [finished]. *)
Definition download_finished (w : World) (self : MainWindow)
    : MainWindow * (trace * result unit) :=
  let self1 :=
    mkMainWindow (url_edit self) (manifest_location_edit self)
      (download_location_edit self) true 0 (Text "Download Finished")
      (Text "") (download_thread self) in
  match download_thread self1 with
  | None => (self1, def (raise none_has_no_attribute))
  | Some t =>
      (with_thread self1 (Some (stop_manager t)),
       def (emit (SetRunning false) ;; kill w (stop_manager t))%stmt)
  end.

(** [closeEvent(self, event)] *)
Definition closeEvent (w : World) (self : MainWindow)
    : MainWindow * (trace * result unit) :=
  match download_thread self with
  | Some t =>
      (with_thread self (Some (stop_manager t)),
       def (emit (SetRunning false) ;;
            kill w (stop_manager t) ;;
            emit SuperCloseEvent)%stmt)
  | None => (self, def (emit SuperCloseEvent))
  end.

(** The connections [download_file] makes: [progress_signal] to
    [update_progress], [finished] to [download_finished].  Each signal of the
    thread's trace runs its slot on the window, in order.  An exception that
    leaves a slot is not handled anywhere: the toolkit ends the program, and
    no later signal is delivered. *)
Fixpoint deliver (w : World) (self : MainWindow) (t : trace)
    : MainWindow * trace :=
  match t with
  | [] => (self, [])
  | ProgressSignal p s r wr :: t' =>
      match MainWindow_update_progress self p s r wr with
      | (self', Ok _) => deliver w self' t'
      | (self', Raise _) => (self', [])
      end
  | FinishedSignal :: t' =>
      let (self', r) := download_finished w self in
      match snd r with
      | Ok _ =>
          let (self'', acts) := deliver w self' t' in
          (self'', fst r ++ acts)
      | Raise _ => (self', fst r)
      end
  | _ :: t' => deliver w self t'
  end.

(** What the window gets from the thread of one job: the signals of [run],
    and then the [finished] that the thread class of the toolkit emits by
    itself once [run] has returned.  When an exception leaves [run] the
    toolkit ends the program and nothing follows. *)
Definition thread_events (w : World) (self : DownloadThread) : trace :=
  fst (run w self) ++
  match snd (run w self) with
  | Ok _ => [FinishedSignal]
  | Raise _ => []
  end.

End Program.

Arguments mkWorld {Manifest}.

(** ** Reading a trace *)

Module Obs.

Definition is_finished (e : event) : bool :=
  match e with FinishedSignal => true | _ => false end.

Definition is_log_error (e : event) : bool :=
  match e with LogError _ => true | _ => false end.

Definition is_progress (e : event) : bool :=
  match e with ProgressSignal _ _ _ _ => true | _ => false end.

Definition is_manager_run (e : event) : bool :=
  match e with ManagerRun => true | _ => false end.

(** A fetch or a file open. *)
Definition is_acquisition (e : event) : bool :=
  match e with RequestsGet _ | OpenRb _ => true | _ => false end.

(** A call to either parser. *)
Definition is_decode (e : event) : bool :=
  match e with ManifestReadAll _ | JSONManifestReadAll _ => true | _ => false end.

(** What is done to the engine: its flag, its process. *)
Definition is_engine_action (e : event) : bool :=
  match e with SetRunning _ | OsKill _ _ => true | _ => false end.

Definition count (p : event -> bool) (t : trace) : nat := List.length (filter p t).

Definition engine_entered (t : trace) : bool := existsb is_manager_run t.

End Obs.
Import Obs.

(** What [update_progress] sends for one item of the queue. *)
Definition forwarded (item : option UIUpdate) : trace :=
  match item with
  | Some p => [ProgressSignal (progress p) (to_mbs (download_speed p))
                              (to_mbs (read_speed p)) (to_mbs (write_speed p))]
  | None => []
  end.

(** The acquisition succeeds with [data]: the fetch and the read of its body
    both return, or the open and the read of the file both return. *)
Inductive Resolves {Manifest} (w : World Manifest) (spec : string) (data : bytes) : Prop :=
| resolves_remote resp :
    Re.re_match url_regex spec = true ->
    requests_get w spec = Ok resp ->
    content resp = Ok data ->
    Resolves w spec data
| resolves_local f :
    Re.re_match url_regex spec = false ->
    open_rb w spec = Ok f ->
    read f = Ok data ->
    Resolves w spec data.

(** The events of a successful acquisition. *)
Definition acquisition_trace (spec : string) : trace :=
  if Re.re_match url_regex spec
  then [LogInfo "Downloading manifest from URL..."; RequestsGet spec]
  else [OpenRb spec].

(** The fetch fails with [e]: [requests.get] raises it, or the read of the
    body does. *)
Inductive FetchRaises {Manifest} (w : World Manifest) (spec : string) (e : exn) : Prop :=
| fetch_raises_get :
    requests_get w spec = Raise e -> FetchRaises w spec e
| fetch_raises_content resp :
    requests_get w spec = Ok resp -> content resp = Raise e ->
    FetchRaises w spec e.

(** The flag of the engine of the window's thread, if there is one. *)
Definition engine_running (self : MainWindow) : option bool :=
  option_map (fun t => running (manager t)) (download_thread self).

(** How [manager.run()] ends, as [run] sees it after
    [except SystemExit: pass]. *)
Definition engine_outcome (r : result unit) : outcome unit :=
  match r with
  | Ok _ => Normal tt
  | Raise e => if isinstance e SystemExit then Normal tt else Raised e
  end.

(** ** Concrete worlds *)

Module Scenario.

Definition body_of (s : string) : bytes := list_byte_of_string s.

Definition no_such_file : exn :=
  mkExn FileNotFoundError "[Errno 2] No such file or directory".
Definition is_a_directory : exn :=
  mkExn IsADirectoryError "[Errno 21] Is a directory".
Definition connection_refused : exn :=
  mkExn ConnectionError "Connection refused".
Definition bad_magic : exn := mkExn ValueError "No header magic!".
Definition bad_json : exn := mkExn ValueError "Expecting value: line 1 column 1 (char 0)".
Definition exit_0 : exn := mkExn SystemExit "0".
Definition no_such_process : exn :=
  mkExn ProcessLookupError "[Errno 3] No such process".

Definition local_spec : string := "/tmp/game.manifest".
Definition remote_spec : string := "https://cdn.example.com/builds/app.manifest".

Definition job (spec : string) : WorkInfo :=
  mkWorkInfo "https://cdn.example.com/" spec "/tmp/out".

(** Here a decoded manifest is just its name. *)
Definition world := World string.

(** Nothing is reachable and nothing parses. *)
Definition barren : world :=
  mkWorld (fun _ => Raise connection_refused)
          (fun _ => Raise no_such_file)
          (fun _ => Raise bad_magic)
          (fun _ => Raise bad_json)
          (fun _ => Ok tt)
          (fun _ => ([], Ok tt))
          (fun _ _ => Ok tt)
          true 4242.

Definition with_get (w : world) (g : string -> result Response) : world :=
  mkWorld g (open_rb w) (Manifest_read_all w) (JSONManifest_read_all w)
          (run_analysis w) (manager_run w) (os_kill w)
          (manager_initially_running w) (manager_parent_pid w).

Definition with_open (w : world) (o : string -> result File) : world :=
  mkWorld (requests_get w) o (Manifest_read_all w) (JSONManifest_read_all w)
          (run_analysis w) (manager_run w) (os_kill w)
          (manager_initially_running w) (manager_parent_pid w).

Definition with_parsers (w : world) (p q : bytes -> result string) : world :=
  mkWorld (requests_get w) (open_rb w) p q
          (run_analysis w) (manager_run w) (os_kill w)
          (manager_initially_running w) (manager_parent_pid w).

Definition with_engine (w : world)
    (r : string -> list (option UIUpdate) * result unit) : world :=
  mkWorld (requests_get w) (open_rb w) (Manifest_read_all w)
          (JSONManifest_read_all w) (run_analysis w) r (os_kill w)
          (manager_initially_running w) (manager_parent_pid w).

Definition with_kill (w : world) (k : Z -> signal -> result unit) : world :=
  mkWorld (requests_get w) (open_rb w) (Manifest_read_all w)
          (JSONManifest_read_all w) (run_analysis w) (manager_run w) k
          (manager_initially_running w) (manager_parent_pid w).

(** The file exists and holds [contents]. *)
Definition file_holds (contents : string) : string -> result File :=
  fun _ => Ok (mkFile (Ok (body_of contents))).

(** The server answers with [status] and [body]. *)
Definition server_answers (status : Z) (body : string) : string -> result Response :=
  fun _ => Ok (mkResponse status (Ok (body_of body))).

Definition half_way : UIUpdate :=
  mkUIUpdate 50%float 3145728%float 1048576%float 2097152%float.
Definition complete : UIUpdate :=
  mkUIUpdate 100%float 0%float 0%float 524288%float.

(** Scenario A: a local binary manifest, the engine runs to the end. *)
Definition scenario_a : world :=
  with_engine
    (with_parsers (with_open barren (file_holds "binary manifest"))
                  (fun _ => Ok "game") (fun _ => Raise bad_json))
    (fun _ => ([Some half_way; Some complete], Ok tt)).

(** As scenario A, but the file is in the text format. *)
Definition text_manifest : world :=
  with_parsers scenario_a (fun _ => Raise bad_magic) (fun _ => Ok "game").

(** As scenario A, but the file parses in neither format. *)
Definition garbage_manifest : world :=
  with_parsers scenario_a (fun _ => Raise bad_magic) (fun _ => Raise bad_json).

(** Scenario B: the server answers 404 with an error page. *)
Definition scenario_b : world :=
  with_get barren (server_answers 404 "<html>Not Found</html>").


(** The manifest path names a directory. *)
Definition directory : world := with_open barren (fun _ => Raise is_a_directory).

(** The engine's process is already gone when it is signalled. *)
Definition already_gone : world :=
  with_kill scenario_a (fun _ _ => Raise no_such_process).

Definition thread (w : world) (spec : string) : DownloadThread :=
  DownloadThread_init w "https://cdn.example.com/" (job spec).

(** A window with its three fields filled in, before [Download] is
    pressed. *)
Definition filled_in : MainWindow :=
  mkMainWindow "https://cdn.example.com/" local_spec "/tmp/out"
               true 0 (Text "") (Text "") None.

(** The same window once a job was started. *)
Definition started (w : world) : MainWindow := download_file w filled_in.

End Scenario.

(** ** The rest of [MainWindow] *)

(** [text.endswith(suffix)] *)
Definition str_endswith (text suffix : string) : bool :=
  let t := rev (list_ascii_of_string text) in
  let x := rev (list_ascii_of_string suffix) in
  (List.length x <=? List.length t)%nat &&
  forallb (fun p => Ascii.eqb (fst p) (snd p)) (combine x t).

(** [text[:-1]] *)
Definition str_drop_last (text : string) : string :=
  string_of_list_ascii (removelast (list_ascii_of_string text)).

Definition newline : string := String "010" "".

(** [write_to_console(self, text)], the slot of [LoggerStream.newText]; the
    console is the list of the paragraphs appended to it. *)
Definition write_to_console (console : list string) (text : string)
    : list string :=
  let text := if str_endswith text newline then str_drop_last text else text in
  console ++ [text].

Definition set_manifest_location (self : MainWindow) (path : string) : MainWindow :=
  mkMainWindow (url_edit self) path (download_location_edit self)
    (download_button_enabled self) (progress_bar self) (progress_label self)
    (speed_label self) (download_thread self).

Definition set_download_location (self : MainWindow) (dir : string) : MainWindow :=
  mkMainWindow (url_edit self) (manifest_location_edit self) dir
    (download_button_enabled self) (progress_bar self) (progress_label self)
    (speed_label self) (download_thread self).

(** [select_manifest(self)]; [manifest_path] is what the file dialog gave
    back (the empty string when it was dismissed). *)
Definition select_manifest (self : MainWindow) (manifest_path : string)
    : MainWindow * trace :=
  (set_manifest_location self manifest_path,
   [LogInfo ("Selected manifest: " ++ manifest_path)%string]).

(** [browse_download_location(self)]; [download_dir] is what the directory
    dialog gave back. *)
Definition browse_download_location (self : MainWindow) (download_dir : string)
    : MainWindow :=
  set_download_location self download_dir.

(** What identifies the job a window holds: the work info of its thread and
    the process the engine told it to signal. *)
Definition job_of (self : MainWindow) : option (WorkInfo * Z) :=
  option_map (fun t => (work_info t, _parent_pid (manager t)))
             (download_thread self).

(** The three input fields and the job are the same in both windows. *)
Definition same_job (a b : MainWindow) : Prop :=
  url_edit a = url_edit b
  /\ manifest_location_edit a = manifest_location_edit b
  /\ download_location_edit a = download_location_edit b
  /\ job_of a = job_of b.

(** ** More ways to read a trace *)

Module Steps.

Definition is_binary_parse (e : event) : bool :=
  match e with ManifestReadAll _ => true | _ => false end.

Definition is_text_parse (e : event) : bool :=
  match e with JSONManifestReadAll _ => true | _ => false end.

Definition is_run_analysis (e : event) : bool :=
  match e with RunAnalysis => true | _ => false end.

Definition is_log_info (e : event) : bool :=
  match e with LogInfo _ => true | _ => false end.

End Steps.
Import Steps.

(** One of the two parsers gives [m] for [data]: the binary one, or the text
    one after the binary one raised an error. *)
Inductive Decodes {Manifest} (w : World Manifest) (data : bytes) (m : Manifest) : Prop :=
| decodes_binary :
    Manifest_read_all w data = Ok m -> Decodes w data m
| decodes_text e1 :
    Manifest_read_all w data = Raise e1 ->
    isinstance e1 Exception = true ->
    JSONManifest_read_all w data = Ok m ->
    Decodes w data m.

(** What [run] gives back once the engine was entered and ended with [r]. *)
Definition run_result_of_engine (r : result unit) : result unit :=
  match r with
  | Ok _ => Ok tt
  | Raise e => if isinstance e SystemExit then Ok tt else Raise e
  end.

(** The parser calls of a decode that gives a manifest: the binary parser
    alone when it returns, both when it raises. *)
Definition decode_trace {Manifest} (w : World Manifest) (data : bytes) : trace :=
  match Manifest_read_all w data with
  | Ok _ => [ManifestReadAll data]
  | Raise _ => [ManifestReadAll data; JSONManifestReadAll data]
  end.

(** The read of the file fails with [e]: [open] raises it, or [read]
    does. *)
Inductive FileRaises {Manifest} (w : World Manifest) (spec : string) (e : exn) : Prop :=
| file_raises_open :
    open_rb w spec = Raise e -> FileRaises w spec e
| file_raises_read f :
    open_rb w spec = Ok f -> read f = Raise e -> FileRaises w spec e.

(** The exception [e] is raised somewhere in a job on [spec] where no
    [except] clause of [run] names it. *)
Inductive Escapes {Manifest} (w : World Manifest) (spec : string) (e : exn) : Prop :=
| escapes_fetch :
    Re.re_match url_regex spec = true ->
    FetchRaises w spec e ->
    isinstance e RequestException = false ->
    Escapes w spec e
| escapes_file :
    Re.re_match url_regex spec = false ->
    FileRaises w spec e ->
    isinstance e FileNotFoundError = false ->
    Escapes w spec e
| escapes_binary_parser data :
    Resolves w spec data ->
    Manifest_read_all w data = Raise e ->
    isinstance e Exception = false ->
    Escapes w spec e
| escapes_text_parser data e1 :
    Resolves w spec data ->
    Manifest_read_all w data = Raise e1 ->
    isinstance e1 Exception = true ->
    JSONManifest_read_all w data = Raise e ->
    isinstance e Exception = false ->
    Escapes w spec e
| escapes_analysis data m :
    Resolves w spec data ->
    Decodes w data m ->
    run_analysis w m = Raise e ->
    Escapes w spec e
| escapes_engine data m :
    Resolves w spec data ->
    Decodes w data m ->
    run_analysis w m = Ok tt ->
    snd (manager_run w m) = Raise e ->
    isinstance e SystemExit = false ->
    Escapes w spec e.

(** ** The URL pattern, said without a matcher *)

Module UrlSpec.

(** Between [lo] and [hi] characters, all of [set]. *)
Definition Within (set : ascii -> bool) (lo : nat) (hi : option nat)
    (l : list ascii) : Prop :=
  Forall (fun c => set c = true) l /\
  (lo <= List.length l)%nat /\
  match hi with Some h => (List.length l <= h)%nat | None => True end.

(** The shape of a spec that is a URL: scheme, optional [www.], host, dot,
    top-level part, path, optional final newline, with a word boundary
    between the top-level part and what follows it. *)
Inductive UrlShape (s : list ascii) : Prop :=
| url_shape (secure www nl : bool) (host tld path : list ascii) :
    s = list_ascii_of_string "http"
        ++ (if secure then list_ascii_of_string "s" else [])
        ++ list_ascii_of_string "://"
        ++ (if www then list_ascii_of_string "www." else [])
        ++ host ++ list_ascii_of_string "." ++ tld ++ path
        ++ (if nl then list_ascii_of_string newline else []) ->
    Within host_set 1 (Some 256%nat) host ->
    Within tld_set 1 (Some 6%nat) tld ->
    Within path_set 0 None path ->
    xorb (Re.is_word (Re.after_lit tld None))
         (Re.is_word (hd_error (path ++ (if nl then list_ascii_of_string newline
                                         else []))))
    = true ->
    UrlShape s.

(** A character that can occur in a spec that is a URL. *)
Definition url_char (c : ascii) : bool :=
  host_set c || path_set c || Ascii.eqb c "010".

End UrlSpec.

(** The window as [download_finished] leaves its widgets. *)
Definition is_reset (self : MainWindow) : Prop :=
  download_button_enabled self = true
  /\ progress_bar self = 0%Z
  /\ progress_label self = Text "Download Finished"
  /\ speed_label self = Text "".

(** The thread that [download_file] builds for a window. *)
Definition job_thread {Manifest} (w : World Manifest) (self : MainWindow)
    : DownloadThread :=
  DownloadThread_init w (url_edit self)
    (mkWorkInfo (url_edit self) (manifest_location_edit self)
                (download_location_edit self)).

(** ** Rates that divide without underflow *)



(** ** Two more worlds *)

Module MoreWorlds.
Import Scenario.

(** The engine of scenario A, stopped by a cancellation: it exits. *)
Definition cancelled : world :=
  with_engine scenario_a (fun _ => ([Some half_way], Raise exit_0)).

(** The engine of scenario A, failing half way. *)
Definition disk_full : exn := mkExn OSError "[Errno 28] No space left on device".
Definition failing : world :=
  with_engine scenario_a (fun _ => ([Some half_way], Raise disk_full)).

End MoreWorlds.

(** * Properties *)

Arguments to_mbs : simpl never.
Arguments isinstance : simpl never.
Arguments Re.re_match : simpl never.

Section Lemmas.

Variable Manifest : Type.
Implicit Types (w : World Manifest) (m : Manifest) (t : trace).

(** ** The statement monad *)

Lemma bind_normal A B (t : trace) (a : A) (f : A -> M B) :
  bind (t, Normal a) f = (t ++ fst (f a), snd (f a)).
Proof. unfold bind. now destruct (f a). Qed.

Lemma count_app p t1 t2 : count p (t1 ++ t2) = (count p t1 + count p t2)%nat.
Proof. unfold count. now rewrite filter_app, length_app. Qed.

(** ** The progress queue *)

(** A predicate that rejects progress signals sees nothing of what the
    queue forwards. *)
Lemma filter_forwarded (p : event -> bool) items :
  (forall a b c d, p (ProgressSignal a b c d) = false) ->
  filter p (flat_map forwarded items) = [].
Proof.
  intros Hp. induction items as [|[u|] items IH]; simpl; auto.
  now rewrite Hp.
Qed.

Lemma put_all_forwards items :
  put_all (mkUpdateProgress update_progress) items
  = (flat_map forwarded items, Normal tt).
Proof.
  induction items as [|item items IH]; [reflexivity|].
  cbn [put_all put callback]. rewrite IH.
  destruct item as [u|]; reflexivity.
Qed.

(** ** The hand-off to the engine *)

Lemma hand_off_shape w url_ wi m :
  hand_off w (DownloadThread_init w url_ wi) m =
  match run_analysis w m with
  | Raise e => ([RunAnalysis], Raised e)
  | Ok _ =>
      (RunAnalysis :: ManagerRun ::
         flat_map forwarded (fst (manager_run w m)) ++ [FinishedSignal],
       engine_outcome (snd (manager_run w m)))
  end.
Proof.
  unfold hand_off, manager_run_call.
  destruct (run_analysis w m) as [[]|e]; [|reflexivity].
  cbn [call DownloadThread_init progress_queue].
  rewrite put_all_forwards.
  destruct (manager_run w m) as [items [[]|e]]; cbn.
  - now rewrite app_nil_r.
  - destruct (isinstance e SystemExit); cbn; now rewrite ?app_nil_r.
Qed.

End Lemmas.

Section RunCases.

Variable Manifest : Type.
Implicit Types (w : World Manifest) (m : Manifest) (t : trace).

(** ** The three blocks of [run], call result by call result *)

Lemma acquire_shape w spec :
  acquire w spec =
  if Re.re_match url_regex spec then
    match requests_get w spec with
    | Ok resp =>
        match content resp with
        | Ok data =>
            ([LogInfo "Downloading manifest from URL..."; RequestsGet spec],
             Normal data)
        | Raise e =>
            if isinstance e RequestException
            then ([LogInfo "Downloading manifest from URL..."; RequestsGet spec;
                   LogError ("Error downloading manifest: " ++ exn_str e)%string],
                  Returned)
            else ([LogInfo "Downloading manifest from URL..."; RequestsGet spec],
                  Raised e)
        end
    | Raise e =>
        if isinstance e RequestException
        then ([LogInfo "Downloading manifest from URL..."; RequestsGet spec;
               LogError ("Error downloading manifest: " ++ exn_str e)%string],
              Returned)
        else ([LogInfo "Downloading manifest from URL..."; RequestsGet spec],
              Raised e)
    end
  else
    match open_rb w spec with
    | Ok f =>
        match read f with
        | Ok data => ([OpenRb spec], Normal data)
        | Raise e =>
            if isinstance e FileNotFoundError
            then ([OpenRb spec; LogError "Manifest file not found."], Returned)
            else ([OpenRb spec], Raised e)
        end
    | Raise e =>
        if isinstance e FileNotFoundError
        then ([OpenRb spec; LogError "Manifest file not found."], Returned)
        else ([OpenRb spec], Raised e)
    end.
Proof.
  unfold acquire.
  destruct (Re.re_match url_regex spec).
  - destruct (requests_get w spec) as [resp|e]; cbn [bind emit call].
    + destruct (content resp) as [data|e];
        cbn [lift ret raise try_except app]; [reflexivity|].
      destruct (isinstance e RequestException); reflexivity.
    + cbn [try_except].
      destruct (isinstance e RequestException); reflexivity.
  - destruct (open_rb w spec) as [f|e]; cbn [bind emit call].
    + destruct (read f) as [data|e];
        cbn [lift ret raise try_except app]; [reflexivity|].
      destruct (isinstance e FileNotFoundError); reflexivity.
    + cbn [try_except].
      destruct (isinstance e FileNotFoundError); reflexivity.
Qed.

Lemma decode_shape w data :
  decode w data =
  match Manifest_read_all w data with
  | Ok m => ([ManifestReadAll data], Normal m)
  | Raise e1 =>
      if isinstance e1 Exception then
        match JSONManifest_read_all w data with
        | Ok m => ([ManifestReadAll data; JSONManifestReadAll data], Normal m)
        | Raise e2 =>
            if isinstance e2 Exception
            then ([ManifestReadAll data; JSONManifestReadAll data;
                   LogError ("Error parsing manifest: " ++ exn_str e2)%string],
                  Returned)
            else ([ManifestReadAll data; JSONManifestReadAll data], Raised e2)
        end
      else ([ManifestReadAll data], Raised e1)
  end.
Proof.
  unfold decode.
  destruct (Manifest_read_all w data) as [m|e1]; [reflexivity|].
  cbn [call try_except].
  destruct (isinstance e1 Exception); [|reflexivity].
  destruct (JSONManifest_read_all w data) as [m|e2]; [reflexivity|].
  cbn [call try_except].
  destruct (isinstance e2 Exception); reflexivity.
Qed.

Lemma run_unfold w self :
  run w self =
  def (bind (acquire w (manifest (work_info self)))
            (fun data => bind (decode w data) (hand_off w self))).
Proof. reflexivity. Qed.

End RunCases.

(** Every way the calls of [run] can come out, one goal each. *)
Ltac run_cases :=
  rewrite run_unfold, acquire_shape;
  cbn [DownloadThread_init work_info];
  repeat first
    [ rewrite decode_shape
    | rewrite hand_off_shape
    | match goal with
      | |- context [Re.re_match url_regex ?s] =>
          destruct (Re.re_match url_regex s) eqn:?
      | |- context [isinstance ?e ?c] => destruct (isinstance e c) eqn:?
      | |- context [engine_outcome (snd (manager_run ?w ?m))] =>
          destruct (manager_run w m) as [? [[]|?]] eqn:?
      | |- context [requests_get ?w ?s] => destruct (requests_get w s) eqn:?
      | |- context [content ?r] => destruct (content r) eqn:?
      | |- context [open_rb ?w ?s] => destruct (open_rb w s) eqn:?
      | |- context [read ?f] => destruct (read f) eqn:?
      | |- context [Manifest_read_all ?w ?d] =>
          destruct (Manifest_read_all w d) eqn:?
      | |- context [JSONManifest_read_all ?w ?d] =>
          destruct (JSONManifest_read_all w d) eqn:?
      | |- context [run_analysis ?w ?m] =>
          destruct (run_analysis w m) as [[]|?] eqn:?
      end
    | progress cbn [bind def fst snd app engine_outcome] ].

(** Counting in a trace that ends with what the engine forwarded. *)
Ltac count_trace :=
  unfold count, engine_entered;
  cbn [filter existsb orb List.length
       is_finished is_log_error is_progress is_manager_run is_acquisition
       is_decode is_engine_action];
  rewrite ?filter_app, ?filter_forwarded by reflexivity;
  cbn [filter existsb orb List.length app
       is_finished is_log_error is_progress is_manager_run is_acquisition
       is_decode is_engine_action].

(** ** The URL pattern: what a match starts with *)

Section UrlPattern.
Import Re.

Lemma match_lit_inv (l : list ascii) : forall prev s k,
  match_lit l prev s k = true ->
  exists s', s = l ++ s' /\ k (after_lit l prev) s' = true.
Proof.
  induction l as [|c l IH]; intros prev s k H.
  - exists s. now split.
  - destruct s as [|d s]; [discriminate|]. cbn [match_lit] in H.
    destruct (Ascii.eqb_spec c d) as [->|]; [|discriminate].
    destruct (IH _ _ _ H) as [s' [-> Hk]].
    exists s'. split; [reflexivity|].
    replace (after_lit (d :: l) prev) with (after_lit l (Some d)); [exact Hk|].
    unfold after_lit. cbn [rev].
    destruct (rev l) as [|x xs]; reflexivity.
Qed.

(** X3.  A spec that matches [url_regex] starts with [http://] or
    [https://]: anything else is a local path. *)
Lemma url_match_has_scheme (spec : string) :
  re_match url_regex spec = true ->
  exists rest,
    spec = ("http://" ++ rest)%string \/ spec = ("https://" ++ rest)%string.
Proof.
  unfold re_match, url_regex. cbn [matches].
  intros H. apply match_lit_inv in H. destruct H as [s1 [Hs1 H]].
  apply orb_true_iff in H. destruct H as [H|H];
    apply match_lit_inv in H; destruct H as [s2 [Hs2 H]].
  - apply match_lit_inv in H. destruct H as [s3 [Hs3 _]].
    exists (string_of_list_ascii s3). right.
    rewrite <- (string_of_list_ascii_of_string spec), Hs1, Hs2, Hs3.
    reflexivity.
  - exists (string_of_list_ascii s2). left.
    rewrite <- (string_of_list_ascii_of_string spec), Hs1, Hs2.
    reflexivity.
Qed.

End UrlPattern.

(** ** Binary64 division by a power of two *)

Section Binary64.
Local Open Scope Z_scope.








End Binary64.

Section Claims.

Variable Manifest : Type.
Implicit Types (w : World Manifest) (m : Manifest) (t : trace).

(** ** Terminal notification (C1) *)



(** ** Acquisition (C2, C4, C7) *)

(** C2, as amended.  When the manifest spec matches the URL pattern and the
    fetch raises a [RequestException] (from [requests.get] or from reading
    the body), the job ends with one error line reporting the download
    failure; neither parser is called and the engine is never entered. *)
Theorem fetch_exception_ends_job w url_ wi e :
  Re.re_match url_regex (manifest wi) = true ->
  FetchRaises w (manifest wi) e ->
  isinstance e RequestException = true ->
  run w (DownloadThread_init w url_ wi)
  = ([LogInfo "Downloading manifest from URL...";
      RequestsGet (manifest wi);
      LogError ("Error downloading manifest: " ++ exn_str e)%string],
     Ok tt)
  /\ count is_decode (fst (run w (DownloadThread_init w url_ wi))) = 0%nat
  /\ engine_entered (fst (run w (DownloadThread_init w url_ wi))) = false.
Proof.
  intros Hurl Hfetch Hexc.
  assert (Hrun : run w (DownloadThread_init w url_ wi)
    = ([LogInfo "Downloading manifest from URL...";
        RequestsGet (manifest wi);
        LogError ("Error downloading manifest: " ++ exn_str e)%string],
       Ok tt)).
  { rewrite run_unfold, acquire_shape. cbn [DownloadThread_init work_info].
    rewrite Hurl.
    destruct Hfetch as [Hget | resp Hget Hbody]; rewrite Hget;
      [|rewrite Hbody]; rewrite Hexc; reflexivity. }
  rewrite Hrun. repeat split.
Qed.

(** C4.  The acquisition events of a job are exactly one: the fetch of the
    spec when it matches the URL pattern, the opening of the file it names
    when it does not. *)
Theorem one_acquisition_path w url_ wi :
  filter is_acquisition (fst (run w (DownloadThread_init w url_ wi)))
  = [if Re.re_match url_regex (manifest wi)
     then RequestsGet (manifest wi)
     else OpenRb (manifest wi)].
Proof.
  run_cases; count_trace; reflexivity.
Qed.

(** C7, as amended.  For a spec that is not a URL: when the file opens and
    reads, the bytes handed to the first parser are the bytes read; when the
    open or the read raises [FileNotFoundError], the job ends with the error
    line [Manifest file not found.] and [run] returns. *)
Theorem local_manifest_read w url_ wi :
  Re.re_match url_regex (manifest wi) = false ->
  match open_rb w (manifest wi) with
  | Ok f =>
      match read f with
      | Ok data =>
          acquire w (manifest wi) = ([OpenRb (manifest wi)], Normal data) /\
          exists rest,
            fst (run w (DownloadThread_init w url_ wi))
            = OpenRb (manifest wi) :: ManifestReadAll data :: rest
      | Raise e =>
          isinstance e FileNotFoundError = true ->
          run w (DownloadThread_init w url_ wi)
          = ([OpenRb (manifest wi); LogError "Manifest file not found."], Ok tt)
      end
  | Raise e =>
      isinstance e FileNotFoundError = true ->
      run w (DownloadThread_init w url_ wi)
      = ([OpenRb (manifest wi); LogError "Manifest file not found."], Ok tt)
  end.
Proof.
  intros Hurl.
  rewrite run_unfold, !acquire_shape. cbn [DownloadThread_init work_info].
  rewrite Hurl.
  destruct (open_rb w (manifest wi)) as [f|e].
  - destruct (read f) as [data|e].
    + split; [reflexivity|].
      cbn [bind]. rewrite decode_shape.
      destruct (Manifest_read_all w data) as [m|e1].
      * cbn [bind]. destruct (hand_off _ _ m) as [t' o].
        destruct o; cbn; eauto.
      * destruct (isinstance e1 Exception); [|cbn; eauto].
        destruct (JSONManifest_read_all w data) as [m|e2].
        -- cbn [bind]. destruct (hand_off _ _ m) as [t' o].
           destruct o; cbn; eauto.
        -- destruct (isinstance e2 Exception); cbn; eauto.
    + intros ->. reflexivity.
  - intros ->. reflexivity.
Qed.

(** ** Decoding (C3) *)

(** C3.  Once the manifest bytes [data] are there, the binary parser is
    called on them first.  If it returns, its manifest goes to the engine and
    the text parser is not called.  If it raises an error, the text parser is
    called on the same bytes: when that returns, its manifest goes to the
    engine and no error line is logged on the way; when that raises too, the
    job ends with exactly one error line, which carries the text parser's
    error and nothing of the binary parser's, and the engine is not
    entered. *)
Theorem decode_fallback_policy w url_ wi data :
  Resolves w (manifest wi) data ->
  match Manifest_read_all w data with
  | Ok m =>
      run w (DownloadThread_init w url_ wi)
      = def (bind (acquisition_trace (manifest wi) ++ [ManifestReadAll data],
                   Normal m)
                  (hand_off w (DownloadThread_init w url_ wi)))
  | Raise e1 =>
      isinstance e1 Exception = true ->
      match JSONManifest_read_all w data with
      | Ok m =>
          run w (DownloadThread_init w url_ wi)
          = def (bind (acquisition_trace (manifest wi)
                         ++ [ManifestReadAll data; JSONManifestReadAll data],
                       Normal m)
                      (hand_off w (DownloadThread_init w url_ wi)))
          /\ count is_log_error (fst (run w (DownloadThread_init w url_ wi)))
             = 0%nat
      | Raise e2 =>
          isinstance e2 Exception = true ->
          run w (DownloadThread_init w url_ wi)
          = (acquisition_trace (manifest wi)
               ++ [ManifestReadAll data; JSONManifestReadAll data;
                   LogError ("Error parsing manifest: " ++ exn_str e2)%string],
             Ok tt)
          /\ count is_log_error (fst (run w (DownloadThread_init w url_ wi)))
             = 1%nat
      end
  end.
Proof.
  intros Hres.
  assert (Hacq : acquire w (manifest wi)
                 = (acquisition_trace (manifest wi), Normal data)).
  { rewrite acquire_shape. unfold acquisition_trace.
    destruct Hres as [resp Hurl Hget Hbody | f Hurl Hopen Hread];
      rewrite Hurl; [rewrite Hget, Hbody | rewrite Hopen, Hread];
      reflexivity. }
  assert (Hsilent : forall pre, count is_log_error pre = 0%nat -> forall m,
    count is_log_error
      (fst (def (bind (pre, Normal m)
                      (hand_off w (DownloadThread_init w url_ wi))))) = 0%nat).
  { intros pre Hpre m. rewrite bind_normal, hand_off_shape.
    destruct (run_analysis w m) as [[]|e].
    - destruct (engine_outcome _); cbn [def fst snd];
        rewrite count_app, Hpre; count_trace; reflexivity.
    - cbn [def fst snd]. rewrite count_app, Hpre. reflexivity. }
  assert (Hquiet : forall extra, count is_log_error extra = 0%nat ->
    count is_log_error (acquisition_trace (manifest wi) ++ extra) = 0%nat).
  { intros extra Hextra. rewrite count_app, Hextra. unfold acquisition_trace.
    destruct (Re.re_match url_regex (manifest wi)); reflexivity. }
  rewrite !run_unfold. cbn [DownloadThread_init work_info].
  rewrite Hacq. cbn [bind]. rewrite decode_shape.
  destruct (Manifest_read_all w data) as [m|e1].
  - cbn [bind]. destruct (hand_off _ _ m) as [t' o].
    now rewrite <- app_assoc.
  - intros ->.
    destruct (JSONManifest_read_all w data) as [m|e2].
    + assert (Heq :
        def (let (t', o) :=
               bind ([ManifestReadAll data; JSONManifestReadAll data], Normal m)
                    (hand_off w (DownloadThread_init w url_ wi)) in
             (acquisition_trace (manifest wi) ++ t', o))
        = def (bind (acquisition_trace (manifest wi)
                       ++ [ManifestReadAll data; JSONManifestReadAll data],
                     Normal m)
                    (hand_off w (DownloadThread_init w url_ wi)))).
      { cbn [bind]. destruct (hand_off _ _ m) as [t' o].
        now rewrite <- app_assoc. }
      cbn [DownloadThread_init] in Heq. rewrite Heq. split; [reflexivity|].
      apply Hsilent, Hquiet. reflexivity.
    + intros ->. cbn [bind def fst snd]. split; [reflexivity|].
      rewrite count_app.
      replace (count is_log_error (acquisition_trace (manifest wi)))
        with 0%nat; [reflexivity|].
      symmetry. rewrite <- (app_nil_r (acquisition_trace _)).
      now apply Hquiet.
Qed.

(** ** The progress queue (C5, C8) *)

(** C5, as amended.  The progress queue keeps nothing: [put] is a call of
    the callback on the item, whatever the timeout.  So every sample the
    engine puts reaches [update_progress] at once, in the order of the puts,
    and each truthy one is sent on: none is held back, none overwrites
    another, and there is nothing to drain. *)
Theorem put_forwards_every_sample w url_ wi :
  (forall cb item timeout, put (mkUpdateProgress cb) item timeout = cb item)
  /\
  (forall items,
     put_all (progress_queue (DownloadThread_init w url_ wi)) items
     = (flat_map forwarded items, Normal tt)).
Proof.
  split; [reflexivity|].
  intros items. cbn [DownloadThread_init progress_queue].
  apply put_all_forwards.
Qed.


(** ** Stopping the engine (C6, C9, C10) *)


(** C6.  When a job exists, [closeEvent] does two things to the engine, in
    this order and whatever [os.kill] answers: it sets the running flag to
    false, then it signals the engine's process with SIGTERM.  The flag is
    down afterwards. *)
Theorem closeEvent_stops_then_kills w (self : MainWindow) (th : DownloadThread) :
  download_thread self = Some th ->
  filter is_engine_action (fst (snd (closeEvent w self)))
  = [SetRunning false; OsKill (_parent_pid (manager th)) SIGTERM]
  /\ (exists rest,
        fst (snd (closeEvent w self))
        = SetRunning false :: OsKill (_parent_pid (manager th)) SIGTERM :: rest)
  /\ engine_running (fst (closeEvent w self)) = Some false.
Proof.
  intros Hth. unfold closeEvent, engine_running. rewrite Hth.
  cbn [fst snd with_thread download_thread option_map].
  unfold kill. cbn [stop_manager manager set_running _parent_pid running].
  destruct (os_kill w (_parent_pid (manager th)) SIGTERM) as [[]|e];
    cbn; eauto.
Qed.

(** C9.  When no job was ever started, [closeEvent] touches nothing of an
    engine: it only hands the event to the base class, and returns. *)
Theorem closeEvent_without_job w (self : MainWindow) :
  download_thread self = None ->
  closeEvent w self = (self, ([SuperCloseEvent], Ok tt))
  /\ filter is_engine_action (fst (snd (closeEvent w self))) = [].
Proof.
  intros Hnone. unfold closeEvent. rewrite Hnone. split; reflexivity.
Qed.




(** A job that ends before the engine and returns sends the window one
    signal, the thread's own [finished]. *)
Lemma deliver_early_return w url_ wi (self : MainWindow) :
  engine_entered (fst (run w (DownloadThread_init w url_ wi))) = false ->
  snd (run w (DownloadThread_init w url_ wi)) = Ok tt ->
  deliver w self (thread_events w (DownloadThread_init w url_ wi))
  = deliver w self [FinishedSignal].
Proof.
  unfold thread_events.
  run_cases; unfold engine_entered; cbn [existsb is_manager_run orb];
    intros Hent Hret; try discriminate Hent; try discriminate Hret;
    reflexivity.
Qed.


End Claims.

(** * The scenarios *)

Section Scenarios.
Import Scenario.

(** ** The URL pattern on the specs of the scenarios *)

Example remote_spec_is_a_url : Re.re_match url_regex remote_spec = true.
Proof. vm_compute. reflexivity. Qed.

Example local_spec_is_a_path : Re.re_match url_regex local_spec = false.
Proof. vm_compute. reflexivity. Qed.

(** A newline after the URL still matches: [$] also stands before a final
    newline. *)
Example trailing_newline_matches :
  Re.re_match url_regex (String.append "http://a.bc" (String "010" "")) = true.
Proof. vm_compute. reflexivity. Qed.

(** Seven letters cannot end a host: the top-level set takes at most six,
    and a word boundary must follow. *)
Example long_tld_is_a_path :
  Re.re_match url_regex "https://example.toolong" = false.
Proof. vm_compute. reflexivity. Qed.

Example other_scheme_is_a_path : Re.re_match url_regex "ftp://a.bc/x" = false.
Proof. vm_compute. reflexivity. Qed.

(** ** C1 *)


(** Scenario A runs to the end: one [finished], no error line. *)
Example scenario_a_finishes :
  count is_finished (fst (run scenario_a (thread scenario_a local_spec))) = 1%nat
  /\ count is_log_error (fst (run scenario_a (thread scenario_a local_spec)))
     = 0%nat
  /\ snd (run scenario_a (thread scenario_a local_spec)) = Ok tt.
Proof. vm_compute. repeat split. Qed.

(** A missing file: one error line, and [run] itself emits no [finished]. *)
Example missing_manifest_is_logged :
  run barren (thread barren local_spec)
  = ([OpenRb local_spec; LogError "Manifest file not found."], Ok tt).
Proof. vm_compute. reflexivity. Qed.

(** ** C2 *)

(** C2 fails as stated.  In scenario B the server answers 404 with an error
    page.  [requests.get] returns, so the page goes to both parsers, and the
    error line that ends the job is a parse error, not a download error. *)
Lemma not_found_page_is_decoded :
  Re.re_match url_regex remote_spec = true
  /\ requests_get scenario_b remote_spec
     = Ok (mkResponse 404 (Ok (body_of "<html>Not Found</html>")))
  /\ run scenario_b (thread scenario_b remote_spec)
     = ([LogInfo "Downloading manifest from URL...";
         RequestsGet remote_spec;
         ManifestReadAll (body_of "<html>Not Found</html>");
         JSONManifestReadAll (body_of "<html>Not Found</html>");
         LogError "Error parsing manifest: Expecting value: line 1 column 1 (char 0)"],
        Ok tt)
  /\ count is_decode (fst (run scenario_b (thread scenario_b remote_spec)))
     = 2%nat.
Proof. vm_compute. repeat split. Qed.

Lemma fetch_exception_ends_job_witness :
  Re.re_match url_regex remote_spec = true
  /\ FetchRaises barren remote_spec connection_refused
  /\ isinstance connection_refused RequestException = true
  /\ run barren (thread barren remote_spec)
     = ([LogInfo "Downloading manifest from URL...";
         RequestsGet remote_spec;
         LogError "Error downloading manifest: Connection refused"],
        Ok tt).
Proof.
  assert (Hurl : Re.re_match url_regex (manifest (job remote_spec)) = true)
    by (vm_compute; reflexivity).
  assert (Hfetch : FetchRaises barren (manifest (job remote_spec))
                               connection_refused)
    by (apply fetch_raises_get; reflexivity).
  split; [exact Hurl|]. split; [exact Hfetch|]. split; [reflexivity|].
  exact (proj1 (@fetch_exception_ends_job _ barren "https://cdn.example.com/"
                  (job remote_spec) connection_refused Hurl Hfetch eq_refl)).
Defined.

(** ** C3 *)

Lemma decode_fallback_policy_witness :
  (run text_manifest (thread text_manifest local_spec)
   = def (bind ([OpenRb local_spec;
                 ManifestReadAll (body_of "binary manifest");
                 JSONManifestReadAll (body_of "binary manifest")],
                Normal "game")
               (hand_off text_manifest (thread text_manifest local_spec)))
   /\ count is_log_error
        (fst (run text_manifest (thread text_manifest local_spec))) = 0%nat)
  /\
  (run garbage_manifest (thread garbage_manifest local_spec)
   = ([OpenRb local_spec;
       ManifestReadAll (body_of "binary manifest");
       JSONManifestReadAll (body_of "binary manifest");
       LogError "Error parsing manifest: Expecting value: line 1 column 1 (char 0)"],
      Ok tt)
   /\ count is_log_error
        (fst (run garbage_manifest (thread garbage_manifest local_spec)))
      = 1%nat).
Proof.
  assert (Hlocal : Re.re_match url_regex (manifest (job local_spec)) = false)
    by (vm_compute; reflexivity).
  split.
  - exact (@decode_fallback_policy _ text_manifest "https://cdn.example.com/"
             (job local_spec) (body_of "binary manifest")
             (@resolves_local _ text_manifest (manifest (job local_spec))
                (body_of "binary manifest")
                (mkFile (Ok (body_of "binary manifest")))
                Hlocal eq_refl eq_refl)
             eq_refl).
  - exact (@decode_fallback_policy _ garbage_manifest "https://cdn.example.com/"
             (job local_spec) (body_of "binary manifest")
             (@resolves_local _ garbage_manifest (manifest (job local_spec))
                (body_of "binary manifest")
                (mkFile (Ok (body_of "binary manifest")))
                Hlocal eq_refl eq_refl)
             eq_refl eq_refl).
Defined.

(** ** C5 *)

(** C5 fails as stated.  Two samples are put one after the other and nothing
    reads in between: both reach the caller, the first one first.  What
    arrives is not the second sample alone. *)
Lemma first_sample_is_delivered :
  fst (bind (put (progress_queue (thread scenario_a local_spec))
                 (Some half_way) None)
            (fun _ => put (progress_queue (thread scenario_a local_spec))
                          (Some complete) None))
  = forwarded (Some half_way) ++ forwarded (Some complete)
  /\ forwarded (Some half_way) ++ forwarded (Some complete)
     <> forwarded (Some complete).
Proof.
  split; [reflexivity|].
  cbn [forwarded app]. intros H. discriminate H.
Qed.

(** ** C6 *)

Lemma closeEvent_stops_then_kills_witness :
  os_kill already_gone 4242 SIGTERM = Raise no_such_process
  /\ download_thread (started already_gone)
     = Some (thread already_gone local_spec)
  /\ filter is_engine_action (fst (snd (closeEvent already_gone (started already_gone))))
     = [SetRunning false; OsKill 4242 SIGTERM]
  /\ engine_running (fst (closeEvent already_gone (started already_gone)))
     = Some false.
Proof.
  assert (Hth : download_thread (started already_gone)
                = Some (thread already_gone local_spec)) by reflexivity.
  destruct (@closeEvent_stops_then_kills _ already_gone (started already_gone)
              (thread already_gone local_spec) Hth)
    as [Hacts [_ Hflag]].
  split; [reflexivity|]. split; [exact Hth|]. split; [exact Hacts|exact Hflag].
Defined.

(** ** C7 *)

(** C7 fails as stated.  The manifest path names a directory: [open] raises
    [IsADirectoryError], which is not a [FileNotFoundError]; it leaves [run]
    uncaught, and no error line is logged. *)
Lemma directory_error_escapes :
  Re.re_match url_regex local_spec = false
  /\ isinstance is_a_directory FileNotFoundError = false
  /\ run directory (thread directory local_spec)
     = ([OpenRb local_spec], Raise is_a_directory).
Proof. vm_compute. repeat split. Qed.

Lemma local_manifest_read_witness :
  (acquire scenario_a local_spec
   = ([OpenRb local_spec], Normal (body_of "binary manifest"))
   /\ exists rest,
        fst (run scenario_a (thread scenario_a local_spec))
        = OpenRb local_spec :: ManifestReadAll (body_of "binary manifest") :: rest)
  /\
  run barren (thread barren local_spec)
  = ([OpenRb local_spec; LogError "Manifest file not found."], Ok tt).
Proof.
  assert (Hlocal : Re.re_match url_regex (manifest (job local_spec)) = false)
    by (vm_compute; reflexivity).
  split.
  - exact (@local_manifest_read _ scenario_a "https://cdn.example.com/"
             (job local_spec) Hlocal).
  - exact (@local_manifest_read _ barren "https://cdn.example.com/"
             (job local_spec) Hlocal eq_refl).
Defined.

(** ** C8 *)



(** ** C9 *)

Lemma closeEvent_without_job_witness :
  download_thread init_ui = None
  /\ closeEvent barren init_ui = (init_ui, ([SuperCloseEvent], Ok tt)).
Proof.
  split; [reflexivity|].
  exact (proj1 (@closeEvent_without_job _ barren init_ui eq_refl)).
Defined.

(** ** C10 *)


End Scenarios.

(** * More of the program *)

(** ** The URL pattern against its shape *)

Section UrlShapeFacts.
Import Re UrlSpec.

Lemma after_lit_cons c (l : list ascii) prev :
  after_lit (c :: l) prev = after_lit l (Some c).
Proof.
  unfold after_lit. cbn [rev].
  destruct (rev l) as [|x xs]; reflexivity.
Qed.

Lemma after_lit_nonempty (l : list ascii) p q :
  l <> [] -> after_lit l p = after_lit l q.
Proof.
  intros Hl. unfold after_lit.
  destruct (rev l) as [|x xs] eqn:E; [|reflexivity].
  apply (f_equal (@rev ascii)) in E. rewrite rev_involutive in E.
  now subst.
Qed.

(** Literal text in front of the subject is read off, and nothing else
    can be. *)
Lemma match_lit_app (l : list ascii) : forall prev s k,
  match_lit l prev (l ++ s) k = k (after_lit l prev) s.
Proof.
  induction l as [|c l IH]; intros prev s k; [reflexivity|].
  cbn [app match_lit]. rewrite Ascii.eqb_refl, IH.
  now rewrite after_lit_cons.
Qed.

Lemma match_rep_inv set : forall s lo hi prev k,
  match_rep set lo hi prev s k = true ->
  exists pre rest,
    s = pre ++ rest /\ Within set lo hi pre
    /\ k (after_lit pre prev) rest = true.
Proof.
  induction s as [|c s IH]; intros lo hi prev k H; cbn [match_rep] in H.
  - destruct (Nat.eqb_spec lo 0); [|discriminate].
    exists [], []. subst lo. repeat split; auto.
    destruct hi; [apply Nat.le_0_l | exact I].
  - apply orb_true_iff in H. destruct H as [H|H].
    + destruct (set c) eqn:Hc; [|discriminate].
      assert (Hhi : hi <> Some 0%nat).
      { intros ->. discriminate. }
      assert (H' : match_rep set (Nat.pred lo) (option_map Nat.pred hi)
                             (Some c) s k = true).
      { destruct hi as [[|h]|]; [congruence|exact H|exact H]. }
      destruct (IH _ _ _ _ H') as [pre [rest [-> [[Hall [Hlo Hhi']] Hk]]]].
      exists (c :: pre), rest. rewrite after_lit_cons.
      repeat split; auto; cbn [List.length].
      * lia.
      * destruct hi as [[|h]|]; cbn in *; [congruence|lia|exact I].
    + destruct (Nat.eqb_spec lo 0); [|discriminate].
      exists [], (c :: s). subst lo. repeat split; auto.
      destruct hi; [apply Nat.le_0_l | exact I].
Qed.

Lemma match_rep_app set : forall pre lo hi prev rest k,
  Within set lo hi pre ->
  k (after_lit pre prev) rest = true ->
  match_rep set lo hi prev (pre ++ rest) k = true.
Proof.
  induction pre as [|c pre IH]; intros lo hi prev rest k [Hall [Hlo Hhi]] Hk.
  - cbn in Hlo. assert (lo = 0%nat) by lia. subst lo.
    change (after_lit [] prev) with prev in Hk.
    cbn [app]. destruct rest as [|d rest]; cbn [match_rep Nat.eqb].
    + exact Hk.
    + rewrite Hk. apply orb_true_r.
  - cbn [app match_rep]. inversion Hall as [|? ? Hc Hall']; subst.
    rewrite Hc. apply orb_true_iff. left.
    rewrite after_lit_cons in Hk.
    assert (Hrec : match_rep set (Nat.pred lo) (option_map Nat.pred hi)
                             (Some c) (pre ++ rest) k = true).
    { apply IH; [|exact Hk]. repeat split; auto.
      - cbn [List.length] in Hlo. lia.
      - destruct hi as [h|]; cbn [option_map]; [|exact I].
        cbn [List.length] in Hhi. lia. }
    destruct hi as [[|h]|]; cbn [andb]; try exact Hrec.
    cbn [List.length] in Hhi. lia.
Qed.

(** What [$] accepts. *)
Lemma eol_inv prev (s : list ascii) :
  matches Eol prev s (fun _ _ => true) = true ->
  exists nl : bool, s = if nl then list_ascii_of_string newline else [].
Proof.
  cbn [matches]. destruct s as [|c [|d s]]; intros H.
  - now exists false.
  - destruct (Ascii.eqb_spec c "010"); [|discriminate].
    subst. now exists true.
  - discriminate.
Qed.

(** The matcher on [url_regex] against the shape, both ways. *)
Lemma url_shape_iff (spec : string) :
  re_match url_regex spec = true <-> UrlShape (list_ascii_of_string spec).
Proof.
  unfold re_match, url_regex. cbn [matches].
  generalize (list_ascii_of_string spec). intros s. split.
  - intros H.
    apply match_lit_inv in H. destruct H as [s1 [-> H]].
    assert (Hs : exists (secure : bool) s2,
      s1 = (if secure then list_ascii_of_string "s" else []) ++ s2 /\
      match_lit (list_ascii_of_string "://")
        (after_lit (if secure then list_ascii_of_string "s" else [])
                   (after_lit (list_ascii_of_string "http") None)) s2
        (fun p s' =>
           match_lit (list_ascii_of_string "www.") p s'
             (fun p0 s'0 =>
                match_rep host_set 1 (Some 256%nat) p0 s'0
                  (fun p1 s'1 =>
                     match_lit (list_ascii_of_string ".") p1 s'1
                       (fun p2 s'2 =>
                          match_rep tld_set 1 (Some 6%nat) p2 s'2
                            (fun p3 s'3 =>
                               if xorb (is_word p3) (is_word (hd_error s'3))
                               then match_rep path_set 0 None p3 s'3
                                      (fun p4 s'4 =>
                                         matches Eol p4 s'4 (fun _ _ => true))
                               else false))))
           || match_rep host_set 1 (Some 256%nat) p s'
                (fun p1 s'1 =>
                   match_lit (list_ascii_of_string ".") p1 s'1
                     (fun p2 s'2 =>
                        match_rep tld_set 1 (Some 6%nat) p2 s'2
                          (fun p3 s'3 =>
                             if xorb (is_word p3) (is_word (hd_error s'3))
                             then match_rep path_set 0 None p3 s'3
                                    (fun p4 s'4 =>
                                       matches Eol p4 s'4 (fun _ _ => true))
                             else false)))) = true).
    { apply orb_true_iff in H. destruct H as [H|H].
      - apply match_lit_inv in H. destruct H as [s2 [-> H]].
        exists true, s2. split; [reflexivity|exact H].
      - exists false, s1. split; [reflexivity|exact H]. }
    clear H. destruct Hs as [secure [s2 [-> H]]].
    apply match_lit_inv in H. destruct H as [s3 [-> H]].
    match type of H with
    | (_ || match_rep _ _ _ ?p _ ?k)%bool = true =>
        assert (Hw : exists (www : bool) s4 p',
          s3 = (if www then list_ascii_of_string "www." else []) ++ s4 /\
          match_rep host_set 1 (Some 256%nat) p' s4 k = true)
    end.
    { apply orb_true_iff in H. destruct H as [H|H].
      - apply match_lit_inv in H. destruct H as [s4 [-> H]].
        exists true, s4. eexists. split; [reflexivity|exact H].
      - exists false, s3. eexists. split; [reflexivity|exact H]. }
    clear H. destruct Hw as [www [s4 [p' [-> H]]]].
    apply match_rep_inv in H. destruct H as [host [s5 [-> [Hhost H]]]].
    apply match_lit_inv in H. destruct H as [s6 [-> H]].
    apply match_rep_inv in H. destruct H as [tld [s7 [-> [Htld H]]]].
    destruct (xorb _ _) eqn:Hb in H; [|discriminate].
    apply match_rep_inv in H. destruct H as [path [s8 [-> [Hpath H]]]].
    apply eol_inv in H. destruct H as [nl ->].
    apply (@url_shape _ secure www nl host tld path);
      [reflexivity|exact Hhost|exact Htld|exact Hpath|].
    rewrite <- Hb. f_equal. f_equal.
    apply after_lit_nonempty.
    destruct Htld as [_ [Hlen _]]. destruct tld; [cbn in Hlen; lia|discriminate].
  - intros [secure www nl host tld path -> Hhost Htld Hpath Hb].
    rewrite match_lit_app.
    assert (Hrest : forall p,
      match_rep host_set 1 (Some 256%nat) p
        (host ++ list_ascii_of_string "." ++ tld ++ path
           ++ (if nl then list_ascii_of_string newline else []))
        (fun p1 s'1 =>
           match_lit (list_ascii_of_string ".") p1 s'1
             (fun p2 s'2 =>
                match_rep tld_set 1 (Some 6%nat) p2 s'2
                  (fun p3 s'3 =>
                     if xorb (is_word p3) (is_word (hd_error s'3))
                     then match_rep path_set 0 None p3 s'3
                            (fun p4 s'4 => matches Eol p4 s'4 (fun _ _ => true))
                     else false))) = true).
    { intros p. apply match_rep_app; [exact Hhost|].
      rewrite match_lit_app. apply match_rep_app; [exact Htld|].
      assert (Hne : tld <> []).
      { destruct Htld as [_ [Hlen _]].
        destruct tld; [cbn in Hlen; lia|discriminate]. }
      rewrite (@after_lit_nonempty tld _ None Hne), Hb.
      apply match_rep_app; [exact Hpath|].
      destruct nl; reflexivity. }
    assert (Hwww : forall p,
      (match_lit (list_ascii_of_string "www.") p
         ((if www then list_ascii_of_string "www." else [])
            ++ host ++ list_ascii_of_string "." ++ tld ++ path
            ++ (if nl then list_ascii_of_string newline else []))
         (fun p0 s'0 =>
            match_rep host_set 1 (Some 256%nat) p0 s'0
              (fun p1 s'1 =>
                 match_lit (list_ascii_of_string ".") p1 s'1
                   (fun p2 s'2 =>
                      match_rep tld_set 1 (Some 6%nat) p2 s'2
                        (fun p3 s'3 =>
                           if xorb (is_word p3) (is_word (hd_error s'3))
                           then match_rep path_set 0 None p3 s'3
                                  (fun p4 s'4 =>
                                     matches Eol p4 s'4 (fun _ _ => true))
                           else false))))
       || match_rep host_set 1 (Some 256%nat) p
            ((if www then list_ascii_of_string "www." else [])
               ++ host ++ list_ascii_of_string "." ++ tld ++ path
               ++ (if nl then list_ascii_of_string newline else []))
            (fun p1 s'1 =>
               match_lit (list_ascii_of_string ".") p1 s'1
                 (fun p2 s'2 =>
                    match_rep tld_set 1 (Some 6%nat) p2 s'2
                      (fun p3 s'3 =>
                         if xorb (is_word p3) (is_word (hd_error s'3))
                         then match_rep path_set 0 None p3 s'3
                                (fun p4 s'4 =>
                                   matches Eol p4 s'4 (fun _ _ => true))
                         else false))))%bool = true).
    { intros p. apply orb_true_iff. destruct www.
      - left. rewrite match_lit_app. apply Hrest.
      - right. apply Hrest. }
    apply orb_true_iff. destruct secure.
    + left. rewrite match_lit_app, match_lit_app. apply Hwww.
    + right. cbn [app]. rewrite match_lit_app. apply Hwww.
Qed.

(** X1.  [re.match(url_regex, spec)] succeeds exactly on the specs of the
    shape [UrlShape]: [http] or [https], [://], an optional [www.], 1 to 256
    host characters, a dot, 1 to 6 top-level characters, a word boundary,
    path characters, and nothing more but an optional final newline. *)
Theorem url_regex_matches_shape (spec : string) :
  re_match url_regex spec = true <-> UrlShape (list_ascii_of_string spec).
Proof. exact (url_shape_iff spec). Qed.

End UrlShapeFacts.

Section UrlAlphabet.
Import Re UrlSpec.

Lemma tld_set_in_path_set c : tld_set c = true -> path_set c = true.
Proof.
  unfold tld_set, path_set. destruct (alnum c); [reflexivity|].
  cbn [orb]. unfold one_of. cbn [list_ascii_of_string existsb].
  destruct (Ascii.eqb_spec c "("); [subst; reflexivity|].
  destruct (Ascii.eqb_spec c ")"); [subst; reflexivity|].
  discriminate.
Qed.

Lemma within_url_chars set lo hi (l : list ascii) :
  (forall c, set c = true -> url_char c = true) ->
  Within set lo hi l -> Forall (fun c => url_char c = true) l.
Proof.
  intros Hset [Hall _]. eapply Forall_impl; [|exact Hall]. exact Hset.
Qed.

(** X2.  A spec with a character outside the URL alphabet (the host and
    path sets and the newline) is never a URL: it is read as a file path.
    Blanks, quotes, backslashes and every character above 127 are such
    characters. *)
Theorem foreign_character_means_file (spec : string) (c : ascii) :
  In c (list_ascii_of_string spec) ->
  url_char c = false ->
  re_match url_regex spec = false.
Proof.
  intros Hin Hc.
  destruct (re_match url_regex spec) eqn:E; [|reflexivity].
  apply url_shape_iff in E.
  destruct E as [secure www nl host tld path Hs Hhost Htld Hpath _].
  assert (Hall : Forall (fun c => url_char c = true) (list_ascii_of_string spec)).
  { rewrite Hs, !Forall_app. repeat split.
    - repeat constructor.
    - destruct secure; repeat constructor.
    - repeat constructor.
    - destruct www; repeat constructor.
    - apply (within_url_chars (set := host_set)) in Hhost; [exact Hhost|].
      intros x Hx. unfold url_char. now rewrite Hx.
    - repeat constructor.
    - apply (within_url_chars (set := tld_set)) in Htld; [exact Htld|].
      intros x Hx. unfold url_char.
      rewrite (tld_set_in_path_set _ Hx). now rewrite orb_true_r.
    - apply (within_url_chars (set := path_set)) in Hpath; [exact Hpath|].
      intros x Hx. unfold url_char. rewrite Hx. now rewrite orb_true_r.
    - destruct nl; repeat constructor. }
  rewrite Forall_forall in Hall. specialize (Hall c Hin). congruence.
Qed.

End UrlAlphabet.

(** ** The whole of [run] *)

Section RunFacts.

Variable Manifest : Type.
Implicit Types (w : World Manifest) (m : Manifest) (t : trace).

Lemma acquire_resolves w spec data :
  Resolves w spec data ->
  acquire w spec = (acquisition_trace spec, Normal data).
Proof.
  intros Hres. rewrite acquire_shape. unfold acquisition_trace.
  destruct Hres as [resp Hurl Hget Hbody | f Hurl Hopen Hread];
    rewrite Hurl; [rewrite Hget, Hbody | rewrite Hopen, Hread]; reflexivity.
Qed.

Lemma decode_decodes w data m :
  Decodes w data m ->
  decode w data = (decode_trace w data, Normal m).
Proof.
  intros Hdec. rewrite decode_shape. unfold decode_trace.
  destruct Hdec as [Hbin | e1 Hbin Herr Htext].
  - now rewrite Hbin.
  - now rewrite Hbin, Herr, Htext.
Qed.

(** The trace of a job that reaches the engine. *)
Lemma run_trace_to_engine w url_ wi data m :
  Resolves w (manifest wi) data ->
  Decodes w data m ->
  run_analysis w m = Ok tt ->
  fst (run w (DownloadThread_init w url_ wi))
  = acquisition_trace (manifest wi) ++ decode_trace w data
    ++ [RunAnalysis; ManagerRun]
    ++ flat_map forwarded (fst (manager_run w m)) ++ [FinishedSignal].
Proof.
  intros Hres Hdec Hana.
  rewrite run_unfold. cbn [DownloadThread_init work_info].
  rewrite (acquire_resolves Hres). cbn [bind].
  rewrite (decode_decodes Hdec). cbn [bind].
  rewrite hand_off_shape, Hana.
  destruct (engine_outcome _); cbn [def fst app]; rewrite <- ?app_assoc;
    reflexivity.
Qed.

(** X4.  A job whose manifest is acquired, parsed and analysed does its
    steps in this order and no others: the acquisition, the parser calls,
    the analysis, the entry into the engine, one progress signal per truthy
    sample in the order the engine put them, and [finished] last. *)
Theorem run_engine_trace w url_ wi data m :
  Resolves w (manifest wi) data ->
  Decodes w data m ->
  run_analysis w m = Ok tt ->
  fst (run w (DownloadThread_init w url_ wi))
  = acquisition_trace (manifest wi) ++ decode_trace w data
    ++ [RunAnalysis; ManagerRun]
    ++ flat_map forwarded (fst (manager_run w m)) ++ [FinishedSignal].
Proof. exact (@run_trace_to_engine w url_ wi data m). Qed.

(** X5.  Once the engine was entered, [run] ends as the engine does, except
    that a [SystemExit] of the engine is swallowed: [run] returns when the
    engine returns or exits, and lets any other exception of the engine
    through.  Either way [finished] was emitted exactly once before. *)
Theorem run_ends_as_engine w url_ wi data m :
  Resolves w (manifest wi) data ->
  Decodes w data m ->
  run_analysis w m = Ok tt ->
  snd (run w (DownloadThread_init w url_ wi))
  = run_result_of_engine (snd (manager_run w m))
  /\ count is_finished (fst (run w (DownloadThread_init w url_ wi))) = 1%nat.
Proof.
  intros Hres Hdec Hana. split.
  - rewrite run_unfold. cbn [DownloadThread_init work_info].
    rewrite (acquire_resolves Hres). cbn [bind].
    rewrite (decode_decodes Hdec). cbn [bind].
    rewrite hand_off_shape, Hana. unfold run_result_of_engine, engine_outcome.
    destruct (snd (manager_run w m)) as [[]|e]; [reflexivity|].
    destruct (isinstance e SystemExit); reflexivity.
  - rewrite (@run_trace_to_engine w url_ wi data m Hres Hdec Hana).
    rewrite !count_app.
    assert (Hacq : count is_finished (acquisition_trace (manifest wi)) = 0%nat).
    { unfold acquisition_trace.
      destruct (Re.re_match url_regex (manifest wi)); reflexivity. }
    assert (Hdecode : count is_finished (decode_trace w data) = 0%nat).
    { unfold decode_trace.
      destruct (Manifest_read_all w data); reflexivity. }
    rewrite Hacq, Hdecode. unfold count at 2.
    rewrite filter_forwarded by reflexivity. reflexivity.
Qed.

(** X6.  The engine is entered only for a manifest that one of the parsers
    returned for the acquired bytes and whose analysis returned; and it is
    entered whenever there is one. *)
Theorem engine_entered_iff w url_ wi :
  engine_entered (fst (run w (DownloadThread_init w url_ wi))) = true
  <-> exists data m,
        Resolves w (manifest wi) data /\ Decodes w data m
        /\ run_analysis w m = Ok tt.
Proof.
  split.
  - run_cases; unfold engine_entered; cbn [existsb is_manager_run orb];
      intros H; try discriminate H;
      repeat match goal with
      | Hx : (_, _) = (_, _) |- _ => clear Hx
      end;
      do 2 eexists;
      (split; [first [ eapply resolves_remote; eassumption
                     | eapply resolves_local; eassumption ]|]);
      (split; [first [ eapply decodes_binary; eassumption
                     | eapply decodes_text; eassumption ]|]);
      eassumption.
  - intros [data [m [Hres [Hdec Hana]]]].
    rewrite (@run_trace_to_engine w url_ wi data m Hres Hdec Hana).
    unfold engine_entered. rewrite !existsb_app. cbn.
    now rewrite !orb_true_r.
Qed.

(** Counting steps of a trace. *)
Ltac count_steps :=
  unfold count;
  cbn [filter is_binary_parse is_text_parse is_run_analysis is_log_info
       is_manager_run is_finished];
  rewrite ?filter_app, ?filter_forwarded by reflexivity;
  cbn [filter List.length app is_binary_parse is_text_parse is_run_analysis
       is_log_info is_manager_run is_finished].

(** X7.  Nothing is tried twice in a job: each parser is called at most
    once, the analysis is run at most once and the engine is entered at most
    once. *)
Theorem run_never_retries w url_ wi :
  (count is_binary_parse (fst (run w (DownloadThread_init w url_ wi))) <= 1)%nat
  /\ (count is_text_parse (fst (run w (DownloadThread_init w url_ wi))) <= 1)%nat
  /\ (count is_run_analysis (fst (run w (DownloadThread_init w url_ wi))) <= 1)%nat
  /\ (count is_manager_run (fst (run w (DownloadThread_init w url_ wi))) <= 1)%nat.
Proof.
  run_cases; count_steps; repeat split; auto.
Qed.

(** X8.  The parser calls of a job are none at all, or the binary parser
    alone, or the binary parser and then the text parser; they are made on
    the bytes that the acquisition gave and on no others, and the text parser
    is called only after the binary parser raised an error on them. *)
Theorem parsers_see_acquired_bytes w url_ wi :
  filter is_decode (fst (run w (DownloadThread_init w url_ wi))) = []
  \/ exists data,
       Resolves w (manifest wi) data
       /\ (filter is_decode (fst (run w (DownloadThread_init w url_ wi)))
           = [ManifestReadAll data]
           \/ (filter is_decode (fst (run w (DownloadThread_init w url_ wi)))
                = [ManifestReadAll data; JSONManifestReadAll data]
               /\ exists e1, Manifest_read_all w data = Raise e1
                             /\ isinstance e1 Exception = true)).
Proof.
  run_cases; count_trace;
    first
      [ left; reflexivity
      | right; eexists;
        (split; [first [ eapply resolves_remote; eassumption
                       | eapply resolves_local; eassumption ]|]);
        first [ left; reflexivity
              | right; split; [reflexivity|];
                eexists; split; eassumption ] ].
Qed.

End RunFacts.

(** ** The window *)

Section WindowFacts.

Variable Manifest : Type.
Implicit Types (w : World Manifest) (self : MainWindow) (t : trace).

(** [closeEvent] on a window that holds a job. *)
Lemma closeEvent_with_job w self (th : DownloadThread) :
  download_thread self = Some th ->
  snd (closeEvent w self)
  = match os_kill w (_parent_pid (manager th)) SIGTERM with
    | Ok _ =>
        ([SetRunning false; OsKill (_parent_pid (manager th)) SIGTERM;
          SuperCloseEvent], Ok tt)
    | Raise e =>
        ([SetRunning false; OsKill (_parent_pid (manager th)) SIGTERM],
         Raise e)
    end.
Proof.
  intros Hth. unfold closeEvent. rewrite Hth. cbn [snd].
  unfold kill. cbn [stop_manager manager set_running _parent_pid].
  destruct (os_kill w (_parent_pid (manager th)) SIGTERM) as [[]|e];
    reflexivity.
Qed.

(** X9.  With a job in the window, [closeEvent] hands the event to the base
    class only if [os.kill] returned; if [os.kill] raises, the exception
    leaves [closeEvent] right after the signal was attempted. *)
Theorem closeEvent_ends_as_kill w self (th : DownloadThread) :
  download_thread self = Some th ->
  snd (closeEvent w self)
  = match os_kill w (_parent_pid (manager th)) SIGTERM with
    | Ok _ =>
        ([SetRunning false; OsKill (_parent_pid (manager th)) SIGTERM;
          SuperCloseEvent], Ok tt)
    | Raise e =>
        ([SetRunning false; OsKill (_parent_pid (manager th)) SIGTERM],
         Raise e)
    end.
Proof. exact (@closeEvent_with_job w self th). Qed.

Lemma same_job_refl a : same_job a a.
Proof. repeat split. Qed.

Lemma same_job_trans a b c : same_job a b -> same_job b c -> same_job a c.
Proof.
  intros [? [? [? ?]]] [? [? [? ?]]]. repeat split; congruence.
Qed.

Lemma download_finished_same_job w self :
  same_job self (fst (download_finished w self)).
Proof.
  unfold download_finished. cbn [download_thread].
  destruct (download_thread self) as [th|] eqn:Hth;
    repeat split; unfold job_of; cbn; now rewrite Hth.
Qed.

Lemma deliver_same_job w : forall t self,
  same_job self (fst (deliver w self t)).
Proof.
  induction t as [|e t IH]; intros self; [apply same_job_refl|].
  destruct e; cbn [deliver]; try apply IH.
  - assert (Hup : same_job self
                    (fst (MainWindow_update_progress self percent mbs rd wr))).
    { unfold MainWindow_update_progress.
      destruct (int_of_float percent); [|apply same_job_refl].
      destruct (QProgressBar_setValue _ _);
        [repeat split | apply same_job_refl]. }
    destruct (MainWindow_update_progress self percent mbs rd wr)
      as [self' [[]|e]]; cbn [fst] in *.
    + eapply same_job_trans; [exact Hup|apply IH].
    + exact Hup.
  - pose proof (download_finished_same_job w self) as Hfin.
    destruct (download_finished w self) as [self' [acts r]].
    cbn [fst snd] in *. destruct r as [[]|e].
    + specialize (IH self').
      destruct (deliver w self' t) as [self'' acts']. cbn [fst] in *.
      eapply same_job_trans; eassumption.
    + exact Hfin.
Qed.

(** X10.  No signal changes what the user typed or which job the window
    holds: after any sequence of signals the three input fields, the work
    info of the thread and the process to signal are what they were. *)
Theorem deliver_keeps_the_job w t self :
  url_edit (fst (deliver w self t)) = url_edit self
  /\ manifest_location_edit (fst (deliver w self t)) = manifest_location_edit self
  /\ download_location_edit (fst (deliver w self t)) = download_location_edit self
  /\ job_of (fst (deliver w self t)) = job_of self.
Proof.
  destruct (deliver_same_job w t self) as [? [? [? ?]]].
  repeat split; congruence.
Qed.

(** X11.  Once a job was started the window never lets go of its thread:
    whatever signals came in since, also [finished], [closeEvent] lowers the
    flag and signals the engine's process again. *)
Theorem closeEvent_after_any_signals w self t :
  filter is_engine_action
    (fst (snd (closeEvent w (fst (deliver w (download_file w self) t)))))
  = [SetRunning false; OsKill (manager_parent_pid w) SIGTERM].
Proof.
  destruct (deliver_same_job w t (download_file w self))
    as [_ [_ [_ Hjob]]].
  symmetry in Hjob. unfold job_of in Hjob. cbn [download_file download_thread option_map] in Hjob.
  destruct (download_thread (fst (deliver w (download_file w self) t)))
    as [th|] eqn:Hth; [|discriminate Hjob].
  cbn [option_map DownloadThread_init manager _parent_pid work_info] in Hjob.
  injection Hjob as _ Hpid.
  rewrite (@closeEvent_with_job w _ th Hth), Hpid.
  destruct (os_kill w (manager_parent_pid w) SIGTERM); reflexivity.
Qed.

Lemma download_finished_resets w self :
  is_reset (fst (download_finished w self)).
Proof.
  unfold download_finished. cbn [download_thread].
  destruct (download_thread self); repeat split.
Qed.

(** X12.  [download_file] disables the button, and the slot of [finished]
    puts the window back to where a new job can be started, whatever was
    delivered before: the button is enabled, the bar is at zero, the
    progress label reads [Download Finished] and the speed label is empty.
    This is also how the window is left by a job that ends before the engine
    and returns, whose only signal is the thread's own [finished]. *)
Theorem finished_resets_the_window w self :
  download_button_enabled (download_file w self) = false
  /\ (forall t,
        is_reset (fst (download_finished w
                         (fst (deliver w (download_file w self) t)))))
  /\ (engine_entered (fst (run w (job_thread w self))) = false ->
      snd (run w (job_thread w self)) = Ok tt ->
      is_reset (fst (deliver w (download_file w self)
                       (thread_events w (job_thread w self))))).
Proof.
  split; [reflexivity|]. split.
  - intros t. apply download_finished_resets.
  - intros Hnot Hret. unfold job_thread in *.
    rewrite (@deliver_early_return _ w _ _ (download_file w self) Hnot Hret).
    cbn [deliver].
    pose proof (download_finished_resets w (download_file w self)) as Hreset.
    destruct (download_finished w (download_file w self)) as [self' [acts r]].
    cbn [fst snd] in *. destruct r; exact Hreset.
Qed.



End WindowFacts.

(** ** The console and the progress bar *)

Section ConsoleFacts.

Lemma list_ascii_of_string_app (a b : string) :
  list_ascii_of_string (a ++ b)%string
  = list_ascii_of_string a ++ list_ascii_of_string b.
Proof.
  induction a as [|c a IH]; [reflexivity|].
  cbn. now rewrite IH.
Qed.

(** [endswith] of the newline says that the text is some text and a
    newline. *)
Lemma str_endswith_newline (text : string) :
  str_endswith text newline = true
  <-> exists r, text = (r ++ newline)%string.
Proof.
  unfold str_endswith, newline. cbn [list_ascii_of_string rev app List.length].
  split.
  - intros H.
    destruct (rev (list_ascii_of_string text)) as [|c l] eqn:E;
      [discriminate H|].
    cbn [List.length Nat.leb combine forallb fst snd andb] in H.
    rewrite andb_true_r in H.
    apply Ascii.eqb_eq in H. subst c.
    exists (string_of_list_ascii (rev l)).
    rewrite <- (string_of_list_ascii_of_string text).
    apply (f_equal (@rev ascii)) in E. rewrite rev_involutive in E.
    rewrite E. cbn [rev].
    rewrite <- (string_of_list_ascii_of_string
                  (string_of_list_ascii (rev l) ++ String "010" "")).
    f_equal. rewrite list_ascii_of_string_app.
    now rewrite list_ascii_of_string_of_list_ascii.
  - intros [r ->]. rewrite list_ascii_of_string_app.
    cbn [list_ascii_of_string]. rewrite rev_app_distr. cbn.
    reflexivity.
Qed.

Lemma str_drop_last_app (r : string) (c : ascii) :
  str_drop_last (r ++ String c "")%string = r.
Proof.
  unfold str_drop_last. rewrite list_ascii_of_string_app.
  cbn [list_ascii_of_string]. rewrite removelast_last.
  apply string_of_list_ascii_of_string.
Qed.

(** X13.  [write_to_console] adds exactly one paragraph to the console: the
    text without its final newline when it ends with one (one newline only
    is taken off), the text as it is when it does not. *)
Theorem write_to_console_strips_one_newline (console : list string) (text : string) :
  exists entry,
    write_to_console console text = console ++ [entry]
    /\ (text = (entry ++ newline)%string
        \/ (text = entry /\ forall r, text <> (r ++ newline)%string)).
Proof.
  unfold write_to_console.
  destruct (str_endswith text newline) eqn:E.
  - apply str_endswith_newline in E. destruct E as [r ->].
    exists r. split; [|now left].
    unfold newline. now rewrite str_drop_last_app.
  - exists text. split; [reflexivity|]. right. split; [reflexivity|].
    intros r Hr.
    assert (H : str_endswith text newline = true)
      by (apply str_endswith_newline; now exists r).
    congruence.
Qed.

End ConsoleFacts.

Section DialogFacts.

Variable Manifest : Type.

(** X15.  What the two dialogs gave back is what the job runs on: after
    [select_manifest], [browse_download_location] and [download_file] the
    window holds a thread for exactly that manifest spec and directory and
    the base URL of the first field, and its [run] acquires the manifest
    from that spec and nowhere else; the selection is logged. *)
Theorem dialogs_feed_the_job (w : World Manifest) (self : MainWindow)
    (manifest_path download_dir : string) :
  snd (select_manifest self manifest_path)
  = [LogInfo ("Selected manifest: " ++ manifest_path)%string]
  /\ exists th,
       download_thread
         (download_file w
            (browse_download_location
               (fst (select_manifest self manifest_path)) download_dir))
       = Some th
       /\ work_info th = mkWorkInfo (url_edit self) manifest_path download_dir
       /\ filter is_acquisition (fst (run w th))
          = [if Re.re_match url_regex manifest_path
             then RequestsGet manifest_path
             else OpenRb manifest_path].
Proof.
  split; [reflexivity|].
  eexists. split; [reflexivity|]. split; [reflexivity|].
  cbn [select_manifest fst browse_download_location set_download_location
       set_manifest_location url_edit manifest_location_edit
       download_location_edit].
  set (wi := mkWorkInfo (url_edit self) manifest_path download_dir).
  change manifest_path with (manifest wi). clearbody wi.
  run_cases; count_trace; reflexivity.
Qed.

End DialogFacts.

(** ** What leaves [run], what it logs first, and the slot run twice *)

Section RunEscapes.

Variable Manifest : Type.
Implicit Types (w : World Manifest) (m : Manifest) (t : trace).

Ltac resolves :=
  first [ eapply resolves_remote; eassumption
        | eapply resolves_local; eassumption ].

Ltac decodes :=
  first [ eapply decodes_binary; eassumption
        | eapply decodes_text; eassumption ].

Lemma run_raises_escapes w url_ wi e :
  snd (run w (DownloadThread_init w url_ wi)) = Raise e ->
  Escapes w (manifest wi) e.
Proof.
  run_cases; intros H; try discriminate H; injection H as <-;
    solve
      [ eapply escapes_fetch;
        [ eassumption
        | first [ apply fetch_raises_get; eassumption
                | eapply fetch_raises_content; eassumption ]
        | eassumption ]
      | eapply escapes_file;
        [ eassumption
        | first [ apply file_raises_open; eassumption
                | eapply file_raises_read; eassumption ]
        | eassumption ]
      | eapply escapes_binary_parser; [resolves | eassumption | eassumption]
      | eapply escapes_text_parser; [resolves | eassumption ..]
      | eapply escapes_analysis; [resolves | decodes | eassumption]
      | eapply escapes_engine;
        [ resolves | decodes | eassumption
        | match goal with
          | Hrun : manager_run _ _ = _ |- _ => rewrite Hrun; reflexivity
          end
        | eassumption ] ].
Qed.

Lemma escapes_run_raises w url_ wi e :
  Escapes w (manifest wi) e ->
  snd (run w (DownloadThread_init w url_ wi)) = Raise e.
Proof.
  intros Hesc. rewrite run_unfold. cbn [DownloadThread_init work_info].
  destruct Hesc as
    [ Hurl Hfetch Hexc | Hurl Hfile Hexc
    | data Hres Hbin Hexc | data e1 Hres Hbin Hexc1 Htext Hexc
    | data m Hres Hdec Hana | data m Hres Hdec Hana Heng Hexc ].
  - rewrite acquire_shape, Hurl.
    destruct Hfetch as [Hget | resp Hget Hbody]; rewrite Hget;
      [|rewrite Hbody]; rewrite Hexc; reflexivity.
  - rewrite acquire_shape, Hurl.
    destruct Hfile as [Hopen | f Hopen Hread]; rewrite Hopen;
      [|rewrite Hread]; rewrite Hexc; reflexivity.
  - rewrite (acquire_resolves Hres). cbn [bind].
    rewrite decode_shape, Hbin, Hexc. reflexivity.
  - rewrite (acquire_resolves Hres). cbn [bind].
    rewrite decode_shape, Hbin, Hexc1, Htext, Hexc. reflexivity.
  - rewrite (acquire_resolves Hres). cbn [bind].
    rewrite (decode_decodes Hdec). cbn [bind].
    rewrite hand_off_shape, Hana. reflexivity.
  - rewrite (acquire_resolves Hres). cbn [bind].
    rewrite (decode_decodes Hdec). cbn [bind].
    rewrite hand_off_shape, Hana, Heng. cbn [engine_outcome].
    rewrite Hexc. reflexivity.
Qed.

(** X16.  [run] raises [e] exactly when [e] is raised at a step whose
    [except] clause does not name it: by the fetch and not a
    [RequestException], by the file and not a [FileNotFoundError], by a
    parser and not an [Exception], by the analysis, or by the engine and not
    a [SystemExit].  Everything else ends in a return. *)
Theorem run_raises_iff w url_ wi e :
  snd (run w (DownloadThread_init w url_ wi)) = Raise e
  <-> Escapes w (manifest wi) e.
Proof.
  split; [apply run_raises_escapes | apply escapes_run_raises].
Qed.

(** X17.  A job starts with its acquisition: for a URL the first event is
    the info line [Downloading manifest from URL...], which is the only info
    line of the job; for a path the first event is the opening of the file
    and the job has no info line. *)
Theorem run_starts_with_acquisition w url_ wi :
  hd_error (fst (run w (DownloadThread_init w url_ wi)))
  = Some (if Re.re_match url_regex (manifest wi)
          then LogInfo "Downloading manifest from URL..."
          else OpenRb (manifest wi))
  /\ filter is_log_info (fst (run w (DownloadThread_init w url_ wi)))
     = (if Re.re_match url_regex (manifest wi)
        then [LogInfo "Downloading manifest from URL..."]
        else []).
Proof.
  run_cases; (split; [reflexivity|]);
    cbn [filter is_log_info];
    rewrite ?filter_app, ?filter_forwarded by reflexivity; reflexivity.
Qed.

(** X18.  Running the slot of [finished] a second time, whatever [os.kill]
    answers by then, leaves the window as the first run left it and tries
    the same on the engine: the flag is set to false again and the process
    is signalled again. *)
Theorem download_finished_twice (w1 w2 : World Manifest) (self : MainWindow) :
  fst (download_finished w2 (fst (download_finished w1 self)))
  = fst (download_finished w1 self)
  /\ fst (snd (download_finished w2 (fst (download_finished w1 self))))
     = fst (snd (download_finished w1 self)).
Proof.
  unfold download_finished, kill. cbn [download_thread].
  destruct (download_thread self) as [th|]; [|split; reflexivity].
  cbn [fst snd with_thread download_thread stop_manager manager set_running
       _parent_pid].
  destruct (os_kill w1 (_parent_pid (manager th)) SIGTERM) as [[]|e1];
    destruct (os_kill w2 (_parent_pid (manager th)) SIGTERM) as [[]|e2];
    split; reflexivity.
Qed.

End RunEscapes.

(** ** The properties on the scenarios *)

Section MoreScenarios.
Import Scenario MoreWorlds.

(** A host without a dot is not a URL for the pattern. *)
Example localhost_is_a_path :
  Re.re_match url_regex "http://localhost/game.manifest" = false
  /\ Re.re_match url_regex "http://localhost.local/game.manifest" = true.
Proof. vm_compute. split; reflexivity. Qed.

Lemma url_match_has_scheme_witness :
  Re.re_match url_regex remote_spec = true
  /\ exists rest,
       remote_spec = ("http://" ++ rest)%string
       \/ remote_spec = ("https://" ++ rest)%string.
Proof.
  assert (H : Re.re_match url_regex remote_spec = true)
    by (vm_compute; reflexivity).
  split; [exact H|]. exact (url_match_has_scheme remote_spec H).
Defined.

Lemma foreign_character_means_file_witness :
  In " "%char (list_ascii_of_string "https://example.com/my game.manifest")
  /\ UrlSpec.url_char " " = false
  /\ Re.re_match url_regex "https://example.com/my game.manifest" = false.
Proof.
  assert (Hin : In " "%char
                  (list_ascii_of_string "https://example.com/my game.manifest"))
    by (vm_compute; repeat (first [left; reflexivity | right])).
  assert (Hc : UrlSpec.url_char " " = false) by (vm_compute; reflexivity).
  split; [exact Hin|]. split; [exact Hc|].
  exact (@foreign_character_means_file
           "https://example.com/my game.manifest" " "%char Hin Hc).
Defined.

(** Scenario A meets the three conditions of a job that reaches the
    engine. *)
Lemma scenario_a_resolves :
  Resolves scenario_a (manifest (job local_spec)) (body_of "binary manifest").
Proof.
  apply (@resolves_local _ scenario_a (manifest (job local_spec))
           (body_of "binary manifest")
           (mkFile (Ok (body_of "binary manifest"))));
    [vm_compute; reflexivity | reflexivity | reflexivity].
Defined.

Lemma scenario_a_decodes :
  Decodes scenario_a (body_of "binary manifest") "game".
Proof. apply decodes_binary. reflexivity. Defined.

Lemma run_engine_trace_witness :
  fst (run scenario_a (thread scenario_a local_spec))
  = [OpenRb local_spec; ManifestReadAll (body_of "binary manifest");
     RunAnalysis; ManagerRun]
    ++ forwarded (Some half_way) ++ forwarded (Some complete)
    ++ [FinishedSignal].
Proof.
  exact (@run_engine_trace _ scenario_a "https://cdn.example.com/"
           (job local_spec) (body_of "binary manifest") "game"
           scenario_a_resolves scenario_a_decodes eq_refl).
Defined.

Lemma run_ends_as_engine_witness :
  (snd (run cancelled (thread cancelled local_spec)) = Ok tt
   /\ count is_finished (fst (run cancelled (thread cancelled local_spec)))
      = 1%nat)
  /\
  (snd (run failing (thread failing local_spec)) = Raise disk_full
   /\ count is_finished (fst (run failing (thread failing local_spec)))
      = 1%nat).
Proof.
  split.
  - exact (@run_ends_as_engine _ cancelled "https://cdn.example.com/"
             (job local_spec) (body_of "binary manifest") "game"
             (@resolves_local _ cancelled (manifest (job local_spec))
                (body_of "binary manifest")
                (mkFile (Ok (body_of "binary manifest")))
                local_spec_is_a_path eq_refl eq_refl)
             (@decodes_binary _ cancelled (body_of "binary manifest") "game"
                eq_refl)
             eq_refl).
  - exact (@run_ends_as_engine _ failing "https://cdn.example.com/"
             (job local_spec) (body_of "binary manifest") "game"
             (@resolves_local _ failing (manifest (job local_spec))
                (body_of "binary manifest")
                (mkFile (Ok (body_of "binary manifest")))
                local_spec_is_a_path eq_refl eq_refl)
             (@decodes_binary _ failing (body_of "binary manifest") "game"
                eq_refl)
             eq_refl).
Defined.

Lemma closeEvent_ends_as_kill_witness :
  snd (closeEvent already_gone (started already_gone))
  = ([SetRunning false; OsKill 4242 SIGTERM], Raise no_such_process)
  /\
  snd (closeEvent scenario_a (started scenario_a))
  = ([SetRunning false; OsKill 4242 SIGTERM; SuperCloseEvent], Ok tt).
Proof.
  split.
  - exact (@closeEvent_ends_as_kill _ already_gone (started already_gone)
             (thread already_gone local_spec) eq_refl).
  - exact (@closeEvent_ends_as_kill _ scenario_a (started scenario_a)
             (thread scenario_a local_spec) eq_refl).
Defined.

Lemma finished_resets_the_window_witness :
  download_button_enabled (download_file barren filled_in) = false
  /\ snd (run barren (job_thread barren filled_in)) = Ok tt
  /\ is_reset (fst (deliver barren (download_file barren filled_in)
                      (thread_events barren (job_thread barren filled_in)))).
Proof.
  assert (Hret : snd (run barren (job_thread barren filled_in)) = Ok tt)
    by (vm_compute; reflexivity).
  assert (Hnot : engine_entered (fst (run barren (job_thread barren filled_in)))
                 = false) by (vm_compute; reflexivity).
  split; [reflexivity|]. split; [exact Hret|].
  exact (proj2 (proj2 (@finished_resets_the_window _ barren filled_in))
           Hnot Hret).
Defined.

(** [int] and [setValue] on a few percentages. *)
Example whole_percentages :
  int_of_float 99.5%float = Ok 99%Z
  /\ int_of_float 0.5%float = Ok 0%Z
  /\ int_of_float (-0.5)%float = Ok 0%Z
  /\ int_of_float (-3.75)%float = Ok (-3)%Z
  /\ int_of_float 150%float = Ok 150%Z
  /\ QProgressBar_setValue 50 150 = Ok 50%Z
  /\ QProgressBar_setValue 50 (-1) = Ok 50%Z
  /\ QProgressBar_setValue 50 99 = Ok 99%Z
  /\ int_of_float 1e10%float = Ok 10000000000%Z
  /\ exn_class (match QProgressBar_setValue 50 10000000000 with
                 | Ok _ => no_such_file
                 | Raise e => e
                 end) = OverflowError
  /\ exn_class (match int_of_float infinity with
                 | Ok _ => no_such_file
                 | Raise e => e
                 end) = OverflowError
  /\ exn_class (match int_of_float nan with
                 | Ok _ => no_such_file
                 | Raise e => e
                 end) = ValueError.
Proof. vm_compute. repeat split. Qed.


End MoreScenarios.
